(** * quantstock: the trading-simulation kernel

    A shallow embedding of the ledger ([portfolio_module/portfolio.py]), the
    simulated broker ([execution_module/brokers/simulated_broker.py]), the
    risk manager ([risk_module/simple_risk_manager.py]) and the order
    pipeline ([execution_module/order_handler.py]).

    Numbers are Python [float]s, that is IEEE-754 binary64 values; they are
    embedded as Rocq's primitive floats, whose operations are the same
    binary64 operations (round to nearest, ties to even); an integer that
    the code mixes with them stands for the float of the same value, which
    is what Python converts it to.  Python dictionaries
    keep insertion order and the code iterates over them, so they are
    association lists that are updated in place.  Readings of the wall clock
    ([datetime.now().isoformat()]) and fresh identifiers ([uuid.uuid4()]) are
    arguments of the operation that performs them. *)

From Stdlib Require Import ZArith List String Ascii Bool Floats Lia.
Import ListNotations.

Set Warnings "-inexact-float".

Local Open Scope string_scope.
Local Open Scope float_scope.

(** ** Python values *)

Module Py.

(** Exceptions carry their class name and message.  [PyExn] is an instance
    of [Exception], which is what [except Exception] catches; [PyBaseExn] is
    an instance of [BaseException] that is not one of [Exception], such as
    [KeyboardInterrupt], [SystemExit] and [GeneratorExit]. *)
Inductive exn :=
| PyExn (class msg : string)
| PyBaseExn (class msg : string).

Definition exn_class (e : exn) : string :=
  match e with
  | PyExn class _ | PyBaseExn class _ => class
  end.

(** [str(e)]. *)
Definition exn_msg (e : exn) : string :=
  match e with
  | PyExn _ msg | PyBaseExn _ msg => msg
  end.

(** [isinstance(e, Exception)]. *)
Definition is_exception (e : exn) : bool :=
  match e with
  | PyExn _ _ => true
  | PyBaseExn _ _ => false
  end.

Inductive outcome (A : Type) : Type :=
| Ok (a : A)
| Raise (e : exn).
Arguments Ok {A} a.
Arguments Raise {A} e.

Definition bind {A B} (m : outcome A) (k : A -> outcome B) : outcome B :=
  match m with
  | Ok a => k a
  | Raise e => Raise e
  end.

(** [str.upper] on the ASCII letters. *)
Definition upper_ascii (c : ascii) : ascii :=
  let n := nat_of_ascii c in
  if (97 <=? n)%nat && (n <=? 122)%nat then ascii_of_nat (n - 32) else c.

Fixpoint upper (s : string) : string :=
  match s with
  | EmptyString => EmptyString
  | String c r => String (upper_ascii c) (upper r)
  end.

(** Truth values of strings, optional strings and floats. *)
Definition truthy_str (s : string) : bool := negb (String.eqb s EmptyString).

Definition truthy_ostr (s : option string) : bool :=
  match s with
  | Some s => truthy_str s
  | None => false
  end.

Definition truthy (x : float) : bool := negb (x =? 0).

Definition truthy_ofloat (x : option float) : bool :=
  match x with
  | Some x => truthy x
  | None => false
  end.

(** [dict.get(key, default)] on an optional field. *)
Definition get_or {A} (d : A) (o : option A) : A :=
  match o with
  | Some a => a
  | None => d
  end.

(** [min(a, b)] and [max(a, b)] keep the first argument unless the second
    is strictly smaller (larger). *)
Definition min (a b : float) : float := if b <? a then b else a.
Definition max (a b : float) : float := if a <? b then b else a.

(** [int(x)] truncates towards zero and raises on NaN and infinities. *)
Definition int (x : float) : outcome Z :=
  match Prim2SF x with
  | S754_zero _ => Ok 0%Z
  | S754_finite s m e =>
      Ok (cond_Zopp s
            (match e with
             | Zneg k => Z.shiftr (Zpos m) (Zpos k)
             | _ => Z.shiftl (Zpos m) e
             end))
  | S754_infinity _ =>
      Raise (PyExn "OverflowError" "cannot convert float infinity to integer")
  | S754_nan =>
      Raise (PyExn "ValueError" "cannot convert float NaN to integer")
  end.

(** [float(n)] for an integer [n]: the nearest binary64 value. *)
Definition float_of_int (n : Z) : float :=
  SF2Prim (binary_normalize prec emax n 0%Z false).

(** Neither NaN nor an infinity. *)
Definition is_finite (x : float) : bool :=
  match Prim2SF x with
  | S754_zero _ | S754_finite _ _ _ => true
  | _ => false
  end.

(** [float(int(x))], the idiom the risk manager uses for whole shares. *)
Definition whole (x : float) : outcome float :=
  bind (int x) (fun n => Ok (float_of_int n)).

(** Insertion-ordered dictionaries with string keys. *)
Section Dict.
Context {V : Type}.

Definition dict := list (string * V).

Fixpoint get (k : string) (d : dict) : option V :=
  match d with
  | [] => None
  | (k', v) :: r => if String.eqb k k' then Some v else get k r
  end.

Definition mem (k : string) (d : dict) : bool :=
  match get k d with
  | Some _ => true
  | None => false
  end.

(** [d[k] = v]: an existing key keeps its place, a new one goes last. *)
Fixpoint set (k : string) (v : V) (d : dict) : dict :=
  match d with
  | [] => [(k, v)]
  | (k', v') :: r =>
      if String.eqb k k' then (k, v) :: r else (k', v') :: set k v r
  end.

(** [del d[k]] (and [d.pop(k, default)]). *)
Fixpoint del (k : string) (d : dict) : dict :=
  match d with
  | [] => []
  | (k', v') :: r => if String.eqb k k' then r else (k', v') :: del k r
  end.

Definition keys (d : dict) : list string := map fst d.
Definition values (d : dict) : list V := map snd d.
End Dict.
Arguments dict V : clear implicits.

(** [sum(xs)] starts from the integer 0 and adds from the left.  (From
    Python 3.12 on, [sum] compensates the rounding errors of a list of
    floats; the two agree on the lists of at most one number that the
    examples below add up, and no statement below depends on a longer
    sum.) *)
Definition sum (xs : list float) : float := fold_left PrimFloat.add xs 0.

End Py.

Notation "x <- m ;; k" := (Py.bind m (fun x => k))
  (at level 61, m at next level, right associativity).

(** ** The ledger: [portfolio_module/portfolio.py] *)

Module Portfolio.

(** A fill event: a dictionary, every key of which may be missing. *)
Record Fill := mkFill {
  f_timestamp : option string;
  f_symbol : option string;
  f_action : option string;
  f_quantity : option float;
  f_price : option float;
  f_commission : option float;
  f_order_id : option string
}.

(** A position record.  The last three keys exist only once
    [_update_market_values] has visited the record. *)
Record Position := mkPosition {
  quantity : float;
  avg_price : float;
  total_cost : float;
  realized_pnl : float;
  current_price : option float;
  market_value : option float;
  unrealized_pnl : option float
}.

Record Trade := mkTrade {
  t_fill : Fill;
  t_realized_pnl_trade : float;
  t_cash_after_trade : float
}.

Record Snapshot := mkSnapshot {
  s_timestamp : string;
  s_total_value : float;
  s_cash : float;
  s_positions_value : float
}.

(** The price a component reads off the reply of
    [market_data_provider.get_current_price(symbol)], if it finds one: a
    reply without a usable price, or an exception, is [None].  The provider
    answers alike throughout one call of a method of the ledger or the
    broker. *)
Definition provider := string -> option float.

Record t := mkPortfolio {
  initial_cash : float;
  cash : float;
  positions : Py.dict Position;
  trade_log : list Trade;
  market_data_provider : option provider;
  portfolio_history : list Snapshot
}.

Definition with_cash (c : float) (p : t) : t :=
  mkPortfolio (initial_cash p) c (positions p) (trade_log p)
              (market_data_provider p) (portfolio_history p).

Definition with_positions (ps : Py.dict Position) (p : t) : t :=
  mkPortfolio (initial_cash p) (cash p) ps (trade_log p)
              (market_data_provider p) (portfolio_history p).

Definition with_trade_log (l : list Trade) (p : t) : t :=
  mkPortfolio (initial_cash p) (cash p) (positions p) l
              (market_data_provider p) (portfolio_history p).

Definition with_history (h : list Snapshot) (p : t) : t :=
  mkPortfolio (initial_cash p) (cash p) (positions p) (trade_log p)
              (market_data_provider p) h.

(** The body of the loop of [_update_market_values] for a record that
    exists. *)
Definition mark (prov : option provider) (symbol : string) (pos : Position)
  : Position :=
  if quantity pos =? 0 then
    mkPosition (quantity pos) (avg_price pos) (total_cost pos)
               (realized_pnl pos) (Some 0) (Some 0) (Some 0)
  else
    let live :=
      match prov with
      | Some get_current_price => get_current_price symbol
      | None => None
      end in
    let price := Py.get_or (avg_price pos) live in
    mkPosition (quantity pos) (avg_price pos) (total_cost pos)
               (realized_pnl pos) (Some price)
               (Some (quantity pos * price))
               (Some ((price - avg_price pos) * quantity pos)).

Definition mark_symbol (prov : option provider) (ps : Py.dict Position)
    (symbol : string) : Py.dict Position :=
  match Py.get symbol ps with
  | Some pos => Py.set symbol (mark prov symbol pos) ps
  | None => ps
  end.

Definition _update_market_values (specific_symbol : option string) (p : t)
  : t :=
  let symbols_to_update :=
    match specific_symbol with
    | Some s => if Py.truthy_str s then [s] else Py.keys (positions p)
    | None => Py.keys (positions p)
    end in
  with_positions
    (fold_left (mark_symbol (market_data_provider p)) symbols_to_update
               (positions p))
    p.

(** [get_total_value] refreshes the market values, then adds them to the
    cash: it returns the value and leaves the refreshed ledger. *)
Definition get_total_value (p : t) : float * t :=
  let p1 := _update_market_values None p in
  let positions_value :=
    Py.sum (map (fun pos => Py.get_or 0 (market_value pos))
                (Py.values (positions p1))) in
  (cash p1 + positions_value, p1).

Definition _record_portfolio_value (now : string) (p : t) : t :=
  let '(current_total_value, p1) := get_total_value p in
  with_history
    (portfolio_history p1 ++
       [mkSnapshot now current_total_value (cash p1)
                   (current_total_value - cash p1)])
    p1.

(** [Portfolio(initial_cash, market_data_provider)]. *)
Definition init (now : string) (initial : float) (prov : option provider)
  : t :=
  _record_portfolio_value now (mkPortfolio initial initial [] [] prov []).

Definition fresh_position : Position :=
  mkPosition 0 0 0 0 None None None.

Definition buy_position (q price : float) (pos : Position) : Position :=
  let new_total_cost := (quantity pos * avg_price pos) + (q * price) in
  let quantity' := quantity pos + q in
  mkPosition quantity'
             (if 0 <? quantity' then new_total_cost / quantity' else 0)
             (total_cost pos + (q * price))
             (realized_pnl pos)
             (current_price pos) (market_value pos) (unrealized_pnl pos).

Definition realized_pnl_this_trade (q price commission : float)
    (pos : Position) : float :=
  let cost_of_sold_shares := avg_price pos * q in
  let proceeds := q * price in
  proceeds - cost_of_sold_shares - commission.

Definition sell_position (q price commission : float) (pos : Position)
  : Position :=
  mkPosition (quantity pos - q)
             (avg_price pos)
             (total_cost pos - avg_price pos * q)
             (realized_pnl pos + realized_pnl_this_trade q price commission pos)
             (current_price pos) (market_value pos) (unrealized_pnl pos).

(** The tail of [update_fill]: the trade log, the market values and the
    history. *)
Definition log_trade (now : string) (fill : Fill) (pnl : float) (p : t) : t :=
  let p1 := with_trade_log (trade_log p ++ [mkTrade fill pnl (cash p)]) p in
  _record_portfolio_value now (_update_market_values None p1).

Definition update_fill (now : string) (fill : Fill) (p : t) : t :=
  let symbol := f_symbol fill in
  let action := Py.upper (Py.get_or EmptyString (f_action fill)) in
  let q := Py.get_or 0 (f_quantity fill) in
  let price := Py.get_or 0 (f_price fill) in
  let commission := Py.get_or 0 (f_commission fill) in
  match symbol with
  | None => p
  | Some symbol =>
    if negb (Py.truthy_str symbol && Py.truthy_str action
             && (0 <? q) && (0 <? price))
    then p
    else if String.eqb action "BUY" then
      let p1 := with_cash (cash p - ((q * price) + commission)) p in
      let pos := Py.get_or fresh_position (Py.get symbol (positions p1)) in
      let p2 :=
        with_positions (Py.set symbol (buy_position q price pos) (positions p1))
                       p1 in
      log_trade now fill 0 p2
    else if String.eqb action "SELL" then
      let p1 := with_cash (cash p + ((q * price) - commission)) p in
      match Py.get symbol (positions p1) with
      | None =>
          (* "Revert cash" *)
          with_cash (cash p1 - ((q * price) - commission)) p1
      | Some pos =>
          if quantity pos <? q then
            (* "Revert cash change due to invalid sell" *)
            with_cash (cash p1 - ((q * price) - commission)) p1
          else
            let p2 :=
              with_positions
                (Py.set symbol (sell_position q price commission pos)
                        (positions p1))
                p1 in
            log_trade now fill (realized_pnl_this_trade q price commission pos)
                      p2
      end
    else p
  end.

Record Summary := mkSummary {
  sm_timestamp : string;
  sm_initial_cash : float;
  sm_current_cash : float;
  sm_positions_market_value : float;
  sm_total_portfolio_value : float;
  sm_total_realized_pnl : float;
  sm_total_unrealized_pnl : float;
  sm_net_profit_loss : float;
  sm_num_trades : nat
}.

Definition get_summary (now : string) (p : t) : Summary * t :=
  let '(total_value, p1) := get_total_value (_update_market_values None p) in
  let positions_value := total_value - cash p1 in
  (mkSummary now (initial_cash p1) (cash p1) positions_value total_value
             (Py.sum (map realized_pnl (Py.values (positions p1))))
             (Py.sum (map (fun pos => Py.get_or 0 (unrealized_pnl pos))
                          (Py.values (positions p1))))
             (total_value - initial_cash p1)
             (List.length (trade_log p1)),
   p1).

(** [get_position] returns the record after refreshing it. *)
Definition get_position (symbol : string) (p : t) : option Position * t :=
  match Py.get symbol (positions p) with
  | Some pos =>
      if 0 <? quantity pos then
        let p1 := _update_market_values (Some symbol) p in
        (Py.get symbol (positions p1), p1)
      else (None, p)
  | None => (None, p)
  end.

End Portfolio.

(** ** Signals, orders and results

    A signal and the order made from it are one dictionary that the pipeline
    copies and extends; every key may be missing.  An f-string is kept as its
    pieces: the literal text and the values formatted into it. *)

Inductive piece :=
| Lit (s : string)
| Str (s : string)
| Num (x : float) (format_spec : string).

Definition fstring := list piece.

Inductive Qty :=
| QNum (x : float)
| QAll.

Record Order := mkOrder {
  o_action : option string;
  o_symbol : option string;
  o_quantity : option Qty;
  o_price : option float;
  o_stop_loss_price : option float;
  o_order_type : option string;
  o_stop_price : option float;
  o_reason : option fstring;
  o_calculated_risk : option float;
  o_order_id : option string
}.

Definition with_order_id (id : string) (o : Order) : Order :=
  mkOrder (o_action o) (o_symbol o) (o_quantity o) (o_price o)
          (o_stop_loss_price o) (o_order_type o) (o_stop_price o)
          (o_reason o) (o_calculated_risk o) (Some id).

Definition with_price (x : option float) (o : Order) : Order :=
  mkOrder (o_action o) (o_symbol o) (o_quantity o) x
          (o_stop_loss_price o) (o_order_type o) (o_stop_price o)
          (o_reason o) (o_calculated_risk o) (o_order_id o).

Definition with_order_type (ty : string) (o : Order) : Order :=
  mkOrder (o_action o) (o_symbol o) (o_quantity o) (o_price o)
          (o_stop_loss_price o) (Some ty) (o_stop_price o)
          (o_reason o) (o_calculated_risk o) (o_order_id o).

Definition with_quantity (q : float) (o : Order) : Order :=
  mkOrder (o_action o) (o_symbol o) (Some (QNum q)) (o_price o)
          (o_stop_loss_price o) (o_order_type o) (o_stop_price o)
          (o_reason o) (o_calculated_risk o) (o_order_id o).

Definition with_reason (r : fstring) (o : Order) : Order :=
  mkOrder (o_action o) (o_symbol o) (o_quantity o) (o_price o)
          (o_stop_loss_price o) (o_order_type o) (o_stop_price o)
          (Some r) (o_calculated_risk o) (o_order_id o).

Definition with_calculated_risk (x : float) (o : Order) : Order :=
  mkOrder (o_action o) (o_symbol o) (o_quantity o) (o_price o)
          (o_stop_loss_price o) (o_order_type o) (o_stop_price o)
          (o_reason o) (Some x) (o_order_id o).

(** [float(order.get('quantity', 0))]. *)
Definition float_of_quantity (q : option Qty) : Py.outcome float :=
  match q with
  | None => Py.Ok 0
  | Some (QNum x) => Py.Ok x
  | Some QAll =>
      Py.Raise (Py.PyExn "ValueError" "could not convert string to float: 'all'")
  end.

(** The dictionary a broker call or the order handler returns. *)
Record Result := mkResult {
  r_status : string;
  r_order_id : option string;
  r_message : fstring;
  r_filled_quantity : option float;
  r_filled_price : option float;
  r_order : option Order;
  r_original_signal : option Order
}.

(** ** The simulated broker: [execution_module/brokers/simulated_broker.py] *)

Module SimulatedBroker.

Record Holding := mkHolding {
  h_quantity : float;
  h_avg_price : float;
  h_market_value : float;
  h_unrealized_pnl : float
}.

(** An entry of [self.orders]: the order's own keys and those the broker
    adds. *)
Record OrderInfo := mkOrderInfo {
  oi_order : Order;
  oi_status : string;
  oi_timestamp : string;
  oi_message : option fstring;
  oi_filled_quantity : option float;
  oi_avg_fill_price : option float;
  oi_executed_timestamp : option string
}.

(** One bar of [current_market_data]. *)
Record Bar := mkBar {
  b_open : option float;
  b_high : option float;
  b_low : option float;
  b_close : option float
}.

(** [trade_history] holds the very dictionaries of [orders]: it is kept as
    the list of their keys.  [portfolio_ref] is the ledger the broker
    reports fills to. *)
Record t := mkBroker {
  is_connected : bool;
  cash_balance : float;
  positions : Py.dict Holding;
  orders : Py.dict OrderInfo;
  trade_history : list string;
  market_data_provider : option Portfolio.provider;
  pending_orders : Py.dict Order;
  commission_per_trade : float;
  slippage_model : string;
  fixed_slippage : float;
  percentage_slippage : float;
  portfolio_ref : option Portfolio.t
}.

Definition with_cash_balance (c : float) (b : t) : t :=
  mkBroker (is_connected b) c (positions b) (orders b) (trade_history b)
           (market_data_provider b) (pending_orders b)
           (commission_per_trade b) (slippage_model b) (fixed_slippage b)
           (percentage_slippage b) (portfolio_ref b).

Definition with_positions (ps : Py.dict Holding) (b : t) : t :=
  mkBroker (is_connected b) (cash_balance b) ps (orders b) (trade_history b)
           (market_data_provider b) (pending_orders b)
           (commission_per_trade b) (slippage_model b) (fixed_slippage b)
           (percentage_slippage b) (portfolio_ref b).

Definition with_orders (os : Py.dict OrderInfo) (b : t) : t :=
  mkBroker (is_connected b) (cash_balance b) (positions b) os
           (trade_history b) (market_data_provider b) (pending_orders b)
           (commission_per_trade b) (slippage_model b) (fixed_slippage b)
           (percentage_slippage b) (portfolio_ref b).

Definition with_trade_history (h : list string) (b : t) : t :=
  mkBroker (is_connected b) (cash_balance b) (positions b) (orders b) h
           (market_data_provider b) (pending_orders b)
           (commission_per_trade b) (slippage_model b) (fixed_slippage b)
           (percentage_slippage b) (portfolio_ref b).

Definition with_pending_orders (q : Py.dict Order) (b : t) : t :=
  mkBroker (is_connected b) (cash_balance b) (positions b) (orders b)
           (trade_history b) (market_data_provider b) q
           (commission_per_trade b) (slippage_model b) (fixed_slippage b)
           (percentage_slippage b) (portfolio_ref b).

Definition with_portfolio_ref (p : option Portfolio.t) (b : t) : t :=
  mkBroker (is_connected b) (cash_balance b) (positions b) (orders b)
           (trade_history b) (market_data_provider b) (pending_orders b)
           (commission_per_trade b) (slippage_model b) (fixed_slippage b)
           (percentage_slippage b) p.

Definition with_connected (c : bool) (b : t) : t :=
  mkBroker c (cash_balance b) (positions b) (orders b)
           (trade_history b) (market_data_provider b) (pending_orders b)
           (commission_per_trade b) (slippage_model b) (fixed_slippage b)
           (percentage_slippage b) (portfolio_ref b).

(** The keys of [config] the constructor reads and the model uses. *)
Record Config := mkConfig {
  cfg_initial_cash : option float;
  cfg_commission_per_trade : option float;
  cfg_slippage_model : option string;
  cfg_fixed_slippage : option float;
  cfg_percentage_slippage : option float
}.

Definition init (config : Config) : t :=
  mkBroker false (Py.get_or 100000.0 (cfg_initial_cash config)) [] [] [] None []
           (Py.get_or 0 (cfg_commission_per_trade config))
           (Py.get_or "none" (cfg_slippage_model config))
           (Py.get_or 0.01 (cfg_fixed_slippage config))
           (Py.get_or 0.0005 (cfg_percentage_slippage config))
           None.

Definition set_market_data_provider (provider : Portfolio.provider) (b : t)
  : t :=
  mkBroker (is_connected b) (cash_balance b) (positions b) (orders b)
           (trade_history b) (Some provider) (pending_orders b)
           (commission_per_trade b) (slippage_model b) (fixed_slippage b)
           (percentage_slippage b) (portfolio_ref b).

Definition connect (b : t) : bool * t := (true, with_connected true b).

Definition disconnect (b : t) : t := with_connected false b.

Definition set_portfolio_reference (p : Portfolio.t) (b : t) : t :=
  with_portfolio_ref (Some p) b.

Definition _apply_slippage (b : t) (price : float) (action : string) : float :=
  if String.eqb (slippage_model b) "none" then price
  else
    let slippage_amount :=
      if String.eqb (slippage_model b) "fixed" then fixed_slippage b
      else if String.eqb (slippage_model b) "percentage"
           then price * percentage_slippage b
           else 0 in
    if String.eqb (Py.upper action) "BUY" then price + slippage_amount
    else if String.eqb (Py.upper action) "SELL" then price - slippage_amount
    else price.

Definition failure (id : option string) (m : string) : Result :=
  mkResult "failed" id [Lit m] None None None None.

Definition filled_message (action : string) (q : float) (symbol : string)
    (filled_price : float) : fstring :=
  [Lit (action ++ " order for "); Num q EmptyString; Lit " "; Str symbol; Lit " @ ";
   Num filled_price ".2f"; Lit " filled."].

(** [self.orders[order_id].update({...})] at the end of an execution. *)
Definition settle (status : string) (q filled_price : float) (m : fstring)
    (now : string) (oi : OrderInfo) : OrderInfo :=
  let filled := String.eqb status "filled" in
  mkOrderInfo (oi_order oi) status (oi_timestamp oi) (Some m)
              (Some (if filled then q else 0))
              (if filled then Some filled_price else None)
              (Some now).

Definition buy_holding (q filled_price : float) (h : Holding) : Holding :=
  let current_qty := h_quantity h in
  let current_avg_price := h_avg_price h in
  let new_total_value := (current_qty * current_avg_price) + (q * filled_price) in
  let new_total_qty := current_qty + q in
  mkHolding new_total_qty
            (if 0 <? new_total_qty then new_total_value / new_total_qty else 0)
            (h_market_value h) (h_unrealized_pnl h).

Definition sell_holding (q : float) (h : Holding) : Holding :=
  let quantity' := h_quantity h - q in
  mkHolding quantity'
            (if quantity' =? 0 then 0 else h_avg_price h)
            (h_market_value h) (h_unrealized_pnl h).

(** The cash and position part of [_execute_order]: the status, the
    message and the broker after it. *)
Definition settle_account (symbol action : string)
    (q filled_price : float) (b : t) : string * fstring * t :=
  let order_value := q * filled_price in
  let total_cost := order_value + commission_per_trade b in
  if String.eqb action "BUY" then
    if total_cost <=? cash_balance b then
      let b1 := with_cash_balance (cash_balance b - total_cost) b in
      let h := Py.get_or (mkHolding 0 0 0 0) (Py.get symbol (positions b1)) in
      ("filled", filled_message "BUY" q symbol filled_price,
       with_positions (Py.set symbol (buy_holding q filled_price h)
                              (positions b1)) b1)
    else ("rejected", [Lit "Insufficient cash"], b)
  else if String.eqb action "SELL" then
    match Py.get symbol (positions b) with
    | Some h =>
        if q <=? h_quantity h then
          let b1 :=
            with_cash_balance
              (cash_balance b + (order_value - commission_per_trade b)) b in
          ("filled", filled_message "SELL" q symbol filled_price,
           with_positions (Py.set symbol (sell_holding q h) (positions b1)) b1)
        else ("rejected", [Lit "Insufficient position"], b)
    | None => ("rejected", [Lit "Insufficient position"], b)
    end
  else ("failed", [Lit "Invalid action"], b).

(** The report of a fill to the ledger. *)
Definition report_fill (now : string) (fill : Portfolio.Fill) (b : t) : t :=
  match portfolio_ref b with
  | Some p => with_portfolio_ref (Some (Portfolio.update_fill now fill p)) b
  | None => b
  end.

(** The price an order is filled at: the reference price, which is the
    provider's current price when the broker has a provider that gives one,
    with the slippage applied. *)
Definition fill_price (b : t) (symbol action : string) (requested_price : float)
  : float :=
  let live :=
    match market_data_provider b with
    | Some get_current_price => get_current_price symbol
    | None => None
    end in
  let execution_price := Py.get_or requested_price live in
  _apply_slippage b execution_price action.

(** "if order_id not in self.orders": the order enters the book. *)
Definition register_order (now order_id : string) (order : Order) (b : t) : t :=
  if Py.mem order_id (orders b) then b
  else with_orders
         (Py.set order_id
            (mkOrderInfo (with_order_id order_id order) "pending_execution" now
                         None None None None)
            (orders b)) b.

Definition update_order (order_id status : string) (q filled_price : float)
    (message : fstring) (now : string) (b : t) : t :=
  match Py.get order_id (orders b) with
  | Some info =>
      with_orders
        (Py.set order_id (settle status q filled_price message now info)
                (orders b)) b
  | None => b
  end.

(** "if status == 'filled'": the trade history and the ledger. *)
Definition notify_fill (now order_id symbol action : string)
    (q filled_price : float) (b : t) : t :=
  report_fill now
    (Portfolio.mkFill (Some now) (Some symbol) (Some action) (Some q)
                      (Some filled_price) (Some (commission_per_trade b))
                      (Some order_id))
    (with_trade_history (trade_history b ++ [order_id]) b).

(** [_execute_order] once the order's fields are found valid. *)
Definition execute_valid (now order_id symbol action : string)
    (q requested_price : float) (order : Order) (b : t) : Result * t :=
  let filled_price := fill_price b symbol action requested_price in
  let b1 := register_order now order_id order b in
  let '(status, message, b2) :=
    settle_account symbol action q filled_price b1 in
  let b3 := update_order order_id status q filled_price message now b2 in
  let filled := String.eqb status "filled" in
  (mkResult status (Some order_id) message
            (Some (if filled then q else 0))
            (if filled then Some filled_price else None)
            None None,
   if filled then notify_fill now order_id symbol action q filled_price b3
   else b3).

Definition _execute_order (now fresh_id : string) (order : Order) (b : t)
  : Py.outcome (Result * t) :=
  if negb (is_connected b) then
    Py.Ok (mkResult "failed" None [Lit "Broker not connected"]
                    None None None None, b)
  else
    let order_id := Py.get_or fresh_id (o_order_id order) in
    let symbol := o_symbol order in
    let action := Py.upper (Py.get_or EmptyString (o_action order)) in
    q <- float_of_quantity (o_quantity order) ;;
    match symbol, o_price order with
    | Some symbol, Some requested_price =>
      if negb (Py.truthy_str symbol && Py.truthy_str action && (0 <? q))
      then Py.Ok (failure (Some order_id) "Invalid order fields", b)
      else Py.Ok (execute_valid now order_id symbol action q requested_price
                                order b)
    | _, _ => Py.Ok (failure (Some order_id) "Invalid order fields", b)
    end.

Definition place_order (now fresh_id : string) (order : Order) (b : t)
  : Py.outcome (Result * t) :=
  if negb (is_connected b) then
    Py.Ok (mkResult "failed" None [Lit "Broker not connected"]
                    None None None None, b)
  else
    let order_id := fresh_id in
    let symbol := o_symbol order in
    let action := Py.upper (Py.get_or EmptyString (o_action order)) in
    q <- float_of_quantity (o_quantity order) ;;
    let order_type := Py.upper (Py.get_or "MARKET" (o_order_type order)) in
    let price := o_price order in
    let stop_price := o_stop_price order in
    let is_limit :=
      String.eqb order_type "LIMIT" || String.eqb order_type "STOP_LIMIT" in
    let is_stop :=
      String.eqb order_type "STOP" || String.eqb order_type "STOP_LIMIT" in
    if negb (Py.truthy_ostr symbol
             && (String.eqb action "BUY" || String.eqb action "SELL")
             && (0 <? q))
    then Py.Ok (failure (Some order_id) "Invalid order fields", b)
    else if is_limit && match price with None => true | Some _ => false end
    then Py.Ok (mkResult "failed" (Some order_id)
                         [Lit "Missing price for "; Str order_type; Lit " order"]
                         None None None None, b)
    else if is_stop && match stop_price with None => true | Some _ => false end
    then Py.Ok (mkResult "failed" (Some order_id)
                         [Lit "Missing stop_price for "; Str order_type;
                          Lit " order"]
                         None None None None, b)
    else
      let order_with_id := with_order_id order_id order in
      if String.eqb order_type "MARKET" then
        _execute_order now fresh_id order_with_id b
      else
        let b1 :=
          with_orders
            (Py.set order_id
               (mkOrderInfo order_with_id "pending" now
                            (Some [Str order_type; Lit " order pending execution"])
                            None None None)
               (orders b)) b in
        let b2 :=
          with_pending_orders
            (Py.set order_id order_with_id (pending_orders b1)) b1 in
        Py.Ok (mkResult "pending" (Some order_id)
                        [Str order_type;
                         Lit " order accepted and pending execution"]
                        None None None None, b2).

(** Comparisons of the bar's close with a price of the order: Python raises
    [TypeError] when either is [None]. *)
Definition type_error : Py.exn :=
  Py.PyExn "TypeError" "comparison not supported with 'NoneType'".

Definition le_price (a b : option float) : Py.outcome bool :=
  match a, b with
  | Some a, Some b => Py.Ok (a <=? b)
  | _, _ => Py.Raise type_error
  end.

Definition ge_price (a b : option float) : Py.outcome bool :=
  match a, b with
  | Some a, Some b => Py.Ok (b <=? a)
  | _, _ => Py.Raise type_error
  end.

Definition limit_condition (action : string)
    (current_price limit_price : option float) : Py.outcome bool :=
  if String.eqb action "BUY" then le_price current_price limit_price
  else if String.eqb action "SELL" then ge_price current_price limit_price
  else Py.Ok false.

Definition stop_condition (action : string)
    (current_price stop_price : option float) : Py.outcome bool :=
  if String.eqb action "BUY" then ge_price current_price stop_price
  else if String.eqb action "SELL" then le_price current_price stop_price
  else Py.Ok false.

Definition should_execute (order : Order) (current_price : option float)
  : Py.outcome bool :=
  let order_type := Py.upper (Py.get_or EmptyString (o_order_type order)) in
  let action := Py.upper (Py.get_or EmptyString (o_action order)) in
  let limit_price := o_price order in
  let stop_price := o_stop_price order in
  if String.eqb order_type "LIMIT" then
    limit_condition action current_price limit_price
  else if String.eqb order_type "STOP" then
    stop_condition action current_price stop_price
  else if String.eqb order_type "STOP_LIMIT" then
    stop_triggered <- stop_condition action current_price stop_price ;;
    if stop_triggered
    then limit_condition action current_price limit_price
    else Py.Ok false
  else Py.Ok false.

(** One turn of the loop of [process_pending_orders]. *)
Definition process_one (now fresh_id : string)
    (current_market_data : Py.dict Bar) (entry : string * Order) (b : t)
  : Py.outcome t :=
  let '(order_id, order) := entry in
  match o_symbol order with
  | None => Py.Ok b
  | Some symbol =>
    match Py.get symbol current_market_data with
    | None => Py.Ok b
    | Some market_data =>
      let current_price := b_close market_data in
      go <- should_execute order current_price ;;
      if go then
        let b1 := with_pending_orders (Py.del order_id (pending_orders b)) b in
        let order_copy := with_order_type "MARKET" (with_price current_price order) in
        rb <- _execute_order now fresh_id order_copy b1 ;;
        Py.Ok (snd rb)
      else Py.Ok b
    end
  end.

(** The loop runs over a copy of the queue taken before it starts; an
    exception leaves the broker as the turns before it made it. *)
Fixpoint process_all (now fresh_id : string)
    (current_market_data : Py.dict Bar) (todo : list (string * Order))
    (b : t) : option Py.exn * t :=
  match todo with
  | [] => (None, b)
  | entry :: rest =>
      match process_one now fresh_id current_market_data entry b with
      | Py.Ok b1 => process_all now fresh_id current_market_data rest b1
      | Py.Raise e => (Some e, b)
      end
  end.

Definition process_pending_orders (now fresh_id : string)
    (current_market_data : Py.dict Bar) (b : t) : option Py.exn * t :=
  if negb (is_connected b)
     || match pending_orders b with [] => true | _ => false end
  then (None, b)
  else process_all now fresh_id current_market_data (pending_orders b) b.

Definition terminal (status : string) : bool :=
  String.eqb status "filled" || String.eqb status "rejected"
  || String.eqb status "cancelled" || String.eqb status "failed".

Definition cancel_order (order_id : string) (b : t) : Result * t :=
  match Py.get order_id (orders b) with
  | Some order_info =>
      if negb (terminal (oi_status order_info)) then
        let b1 :=
          if Py.mem order_id (pending_orders b)
          then with_pending_orders (Py.del order_id (pending_orders b)) b
          else b in
        let order_info' :=
          mkOrderInfo (oi_order order_info) "cancelled"
                      (oi_timestamp order_info)
                      (Some [Lit "Order cancelled by user."])
                      (oi_filled_quantity order_info)
                      (oi_avg_fill_price order_info)
                      (oi_executed_timestamp order_info) in
        (mkResult "cancelled" None [Lit "Order cancelled successfully."]
                  None None None None,
         with_orders (Py.set order_id order_info' (orders b1)) b1)
      else
        (mkResult "failed" None
                  [Lit "Order cannot be cancelled (status: ";
                   Str (oi_status order_info); Lit ")."]
                  None None None None, b)
  | None =>
      (mkResult "failed" None [Lit "Order ID not found"]
                None None None None, b)
  end.

Definition get_order_status (order_id : string) (b : t) : option OrderInfo :=
  Py.get order_id (orders b).

(** The brokers a client can bring about through the methods above. *)
Inductive reachable : t -> Prop :=
| reach_init config : reachable (init config)
| reach_connect b : reachable b -> reachable (snd (connect b))
| reach_disconnect b : reachable b -> reachable (disconnect b)
| reach_provider provider b :
    reachable b -> reachable (set_market_data_provider provider b)
| reach_portfolio p b : reachable b -> reachable (set_portfolio_reference p b)
| reach_place now fresh_id order b r b' :
    reachable b -> place_order now fresh_id order b = Py.Ok (r, b') ->
    reachable b'
| reach_process now fresh_id current_market_data b :
    reachable b ->
    reachable (snd (process_pending_orders now fresh_id current_market_data b))
| reach_cancel order_id b :
    reachable b -> reachable (snd (cancel_order order_id b)).

(** The statuses an order is left with between two calls. *)
Definition resting_statuses : list string :=
  ["pending"; "filled"; "rejected"; "failed"; "cancelled"].

Definition statuses_at_rest (b : t) : Prop :=
  forall order_id info,
    In (order_id, info) (orders b) -> In (oi_status info) resting_statuses.

End SimulatedBroker.

(** ** The risk manager: [risk_module/simple_risk_manager.py] *)

Module SimpleRiskManager.

(** The keys of [config] the constructor reads. *)
Record Config := mkConfig {
  cfg_initial_capital : option float;
  cfg_max_risk_per_trade_pct : option float;
  cfg_max_total_risk_pct : option float;
  cfg_max_drawdown_limit_pct : option float;
  cfg_position_sizing_method : option string;
  cfg_max_order_value_pct : option float;
  cfg_max_position_pct_asset : option float;
  cfg_min_cash_balance_pct : option float
}.

(** What the market-data block at the end of
    [calculate_max_position_size] makes of the quantity, for a symbol and
    an entry price: it reads the provider's history and the clock, and
    keeps what it had computed when an exception stops it. *)
Definition market_limits := string -> float -> float -> float.

Record t := mkRisk {
  initial_capital : float;
  current_capital : float;
  high_water_mark : float;
  max_risk_per_trade_pct : float;
  max_total_risk_pct : float;
  max_drawdown_limit_pct : float;
  position_sizing_method : string;
  current_total_risk_amount : float;
  positions_risk : Py.dict float;
  max_order_value_pct : float;
  max_position_pct_asset : float;
  min_cash_balance_pct : float;
  data_provider : option market_limits
}.

(** [SimpleRiskManager(config)] without a data provider factory. *)
Definition init (config : Config) : t :=
  let initial := Py.get_or 100000.0 (cfg_initial_capital config) in
  mkRisk initial initial initial
         (Py.get_or 0.02 (cfg_max_risk_per_trade_pct config))
         (Py.get_or 0.05 (cfg_max_total_risk_pct config))
         (Py.get_or 0.1 (cfg_max_drawdown_limit_pct config))
         (Py.get_or "percent_risk" (cfg_position_sizing_method config))
         0 []
         (Py.get_or 0.1 (cfg_max_order_value_pct config))
         (Py.get_or 0.2 (cfg_max_position_pct_asset config))
         (Py.get_or 0.05 (cfg_min_cash_balance_pct config))
         None.

Definition with_capital (capital hwm : float) (r : t) : t :=
  mkRisk (initial_capital r) capital hwm (max_risk_per_trade_pct r)
         (max_total_risk_pct r) (max_drawdown_limit_pct r)
         (position_sizing_method r) (current_total_risk_amount r)
         (positions_risk r) (max_order_value_pct r)
         (max_position_pct_asset r) (min_cash_balance_pct r)
         (data_provider r).

Definition with_risk (total : float) (ledger : Py.dict float) (r : t) : t :=
  mkRisk (initial_capital r) (current_capital r) (high_water_mark r)
         (max_risk_per_trade_pct r) (max_total_risk_pct r)
         (max_drawdown_limit_pct r) (position_sizing_method r) total ledger
         (max_order_value_pct r) (max_position_pct_asset r)
         (min_cash_balance_pct r) (data_provider r).

(** The portfolio snapshot handed to the risk manager: a dictionary of
    which the manager reads ['total_value'] and ['cash']. *)
Record PortfolioState := mkPortfolioState {
  ps_total_value : option float;
  ps_cash : option float;
  ps_other_keys : bool
}.

(** [not portfolio_state]: the dictionary is empty. *)
Definition is_empty (ps : PortfolioState) : bool :=
  match ps_total_value ps, ps_cash ps with
  | None, None => negb (ps_other_keys ps)
  | _, _ => false
  end.

Definition _calculate_current_drawdown (r : t) : float :=
  if high_water_mark r =? 0 then 0
  else
    let drawdown := (high_water_mark r - current_capital r) / high_water_mark r in
    if 0 <? drawdown then drawdown else 0.

(** The alert of [update_portfolio_state] only writes to the log. *)
Definition update_portfolio_state (ps : PortfolioState) (r : t) : t :=
  match ps_total_value ps with
  | None => r
  | Some new_capital =>
      with_capital new_capital
                   (if high_water_mark r <? new_capital then new_capital
                    else high_water_mark r)
                   r
  end.

Definition _get_risk_amount_for_trade (entry_price stop_loss_price q : float)
  : float :=
  if (q <=? 0) || (entry_price <=? 0) || (stop_loss_price <=? 0) then 0
  else abs (entry_price - stop_loss_price) * q.

Definition _add_position_risk (symbol : string) (risk_amount : float) (r : t)
  : t :=
  if risk_amount <=? 0 then r
  else
    let total :=
      current_total_risk_amount r
      - Py.get_or 0 (Py.get symbol (positions_risk r)) in
    with_risk (total + risk_amount)
              (Py.set symbol risk_amount (positions_risk r)) r.

Definition _remove_position_risk (symbol : string) (r : t) : t :=
  let removed_risk := Py.get_or 0 (Py.get symbol (positions_risk r)) in
  with_risk (current_total_risk_amount r - removed_risk)
            (Py.del symbol (positions_risk r)) r.

(** The held quantity a position state stands for:
    [position_state.get('quantity', 0)] when there is a position state. *)
Definition holding (position_state : option Portfolio.Position) : float :=
  match position_state with
  | Some pos => Portfolio.quantity pos
  | None => 0
  end.

Definition is_entry (action : string) : bool :=
  String.eqb action "BUY" || String.eqb action "SHORT".

Definition is_exit (action : string) : bool :=
  String.eqb action "SELL" || String.eqb action "COVER".

Definition unfavorable (action : string) (price stop : float) : bool :=
  (String.eqb action "BUY" && (price <=? stop))
  || (String.eqb action "SHORT" && (stop <=? price)).

Definition invalid_stop (stop_loss_price : option float) : bool :=
  match stop_loss_price with
  | None => true
  | Some s => s <=? 0
  end.

Definition show_quantity (q : option Qty) : piece :=
  match q with
  | Some (QNum x) => Num x EmptyString
  | Some QAll => Str "all"
  | None => Str "None"
  end.

(** The checks of [validate_signal] after the capital view is refreshed
    and the quantity is converted; [q] is [None] when the signal leaves
    the quantity to the risk manager. *)
Definition validate_sized (r : t) (action symbol : string) (price : float)
    (stop_loss_price : option float) (q : option float)
    (ps : PortfolioState) (position_state : option Portfolio.Position)
  : bool * fstring :=
  let entry_with_quantity :=
    match q with Some _ => is_entry action | None => false end in
  if entry_with_quantity && invalid_stop stop_loss_price then
    (false, [Lit "Signal for "; Str action; Lit " "; Str symbol;
             Lit " missing valid 'stop_loss_price'."])
  else if entry_with_quantity
          && unfavorable action price (Py.get_or 0 stop_loss_price) then
    (false, [Lit "Entry price "; Num price EmptyString;
             Lit " is not favorable compared to stop loss ";
             Num (Py.get_or 0 stop_loss_price) EmptyString; Lit " for "; Str action;
             Lit "."])
  else
    let proposed_risk_amount :=
      match q with
      | Some qv =>
          if is_entry action
          then _get_risk_amount_for_trade price (Py.get_or 0 stop_loss_price) qv
          else 0
      | None => 0
      end in
    let max_risk_allowed_per_trade :=
      current_capital r * max_risk_per_trade_pct r in
    if (0 <? proposed_risk_amount)
       && (max_risk_allowed_per_trade <? proposed_risk_amount) then
      (false, [Lit "Proposed risk "; Num proposed_risk_amount ".2f";
               Lit " for trade exceeds max risk per trade limit (";
               Num max_risk_allowed_per_trade ".2f"; Lit ")."])
    else
      let current_risk_for_symbol :=
        Py.get_or 0 (Py.get symbol (positions_risk r)) in
      let additional_risk :=
        if is_exit action then - current_risk_for_symbol
        else proposed_risk_amount
             - (if is_entry action then current_risk_for_symbol else 0) in
      let potential_total_risk := current_total_risk_amount r + additional_risk in
      let max_total_portfolio_risk_abs :=
        current_capital r * max_total_risk_pct r in
      if (max_total_portfolio_risk_abs <? potential_total_risk)
         && (0 <? additional_risk) then
        (false, [Lit "Trade would exceed max total portfolio risk. Current: ";
                 Num (current_total_risk_amount r) ".2f";
                 Lit ", This trade adds ~"; Num additional_risk ".2f";
                 Lit ", Potential: "; Num potential_total_risk ".2f";
                 Lit " Limit: "; Num max_total_portfolio_risk_abs ".2f"])
      else
        let total_portfolio_value := Py.get_or 0 (ps_total_value ps) in
        let available_cash := Py.get_or 0 (ps_cash ps) in
        if total_portfolio_value <=? 0 then
          (false, [Lit "Portfolio total value is zero or invalid."])
        else
          let order_value :=
            match q with Some qv => qv * price | None => 0 end in
          let passed :=
            (true, [Lit "Signal preliminarily valid (final size TBD by adjust_order_size)."]) in
          if String.eqb action "BUY" then
            let min_cash_needed :=
              total_portfolio_value * min_cash_balance_pct r in
            if (0 <? order_value)
               && (total_portfolio_value * max_order_value_pct r <? order_value)
            then
              (false, [Lit "Order value "; Num order_value ".2f";
                       Lit " exceeds max order value limit (";
                       Num (total_portfolio_value * max_order_value_pct r) ".2f";
                       Lit ")."])
            else if (0 <? order_value)
                    && (available_cash - order_value <? min_cash_needed)
            then
              (false, [Lit "Insufficient cash after trade for min balance. Available: ";
                       Num available_cash ".2f"; Lit ", Order: ";
                       Num order_value ".2f"; Lit ", MinCash: ";
                       Num min_cash_needed ".2f"])
            else
              match q with
              | Some _ =>
                  let current_asset_value :=
                    match position_state with
                    | Some pos =>
                        if 0 <? Portfolio.quantity pos
                        then Portfolio.quantity pos * price else 0
                    | None => 0
                    end in
                  let new_asset_value := current_asset_value + order_value in
                  if total_portfolio_value * max_position_pct_asset r
                     <? new_asset_value
                  then
                    (false, [Lit "Asset "; Str symbol; Lit " value ";
                             Num new_asset_value ".2f";
                             Lit " would exceed max position limit (";
                             Num (total_portfolio_value * max_position_pct_asset r) ".2f";
                             Lit ")."])
                  else passed
              | None => passed
              end
          else if String.eqb action "SELL" then
            match q with
            | Some qv =>
                if match position_state with
                   | Some pos => Portfolio.quantity pos <? qv
                   | None => true
                   end
                then (false, [Lit "Sell quantity "; Num qv EmptyString;
                              Lit " exceeds holdings ";
                              Num (holding position_state) EmptyString; Lit "."])
                else passed
            | None => passed
            end
          else passed.

Definition validate_signal (signal : Order) (portfolio_state : option PortfolioState)
    (position_state : option Portfolio.Position) (r : t)
  : (bool * fstring) * t :=
  match portfolio_state with
  | None => ((false, [Lit "Portfolio state missing."]), r)
  | Some ps =>
    if is_empty ps then ((false, [Lit "Portfolio state missing."]), r)
    else
      let action := Py.upper (Py.get_or EmptyString (o_action signal)) in
      let quantity := o_quantity signal in
      let stop_loss_price := o_stop_loss_price signal in
      match o_symbol signal, o_price signal with
      | Some symbol, Some price =>
        if negb (Py.truthy_str action && Py.truthy_str symbol && Py.truthy price)
        then ((false, [Lit "Signal missing action, symbol, or price."]), r)
        else if price <=? 0 then
          ((false, [Lit "Invalid entry price: "; Num price EmptyString]), r)
        else
          let r1 := update_portfolio_state ps r in
          let current_drawdown := _calculate_current_drawdown r1 in
          if max_drawdown_limit_pct r1 <=? current_drawdown then
            ((false, [Lit "Trading halted/restricted: Max drawdown limit ";
                      Num (max_drawdown_limit_pct r1) ".2%";
                      Lit " reached (current: "; Num current_drawdown ".2%";
                      Lit ")."]), r1)
          else
            match quantity with
            | Some QAll =>
                if String.eqb action "SELL" then
                  if match position_state with
                     | Some pos => Portfolio.quantity pos <=? 0
                     | None => true
                     end
                  then ((false, [Lit "Cannot sell 'all' for "; Str symbol;
                                 Lit ": No existing position."]), r1)
                  else ((true, [Lit "Sell 'all' signal preliminarily valid."]), r1)
                else
                  ((false, [Lit "Invalid quantity format: "; Str "all"]), r1)
            | Some (QNum qv) =>
                if qv <=? 0 then ((false, [Lit "Quantity must be positive."]), r1)
                else (validate_sized r1 action symbol price stop_loss_price
                                     (Some qv) ps position_state, r1)
            | None =>
                (validate_sized r1 action symbol price stop_loss_price
                                None ps position_state, r1)
            end
      | _, _ => ((false, [Lit "Signal missing action, symbol, or price."]), r)
      end
  end.

(** The sizing rule proper: the quantity before the caps on asset value,
    cash and order value, or the value returned at once. *)
Inductive sized :=
| Sized (q : float)
| Returned (q : float).

Definition size_by_method (r : t) (action : string) (current_price : float)
    (stop_loss_price : option float) (risk_amount_for_this_trade : float)
  : sized :=
  if String.eqb (position_sizing_method r) "percent_risk" then
    match stop_loss_price with
    | None => Returned 0
    | Some stop =>
        if stop <=? 0 then Returned 0
        else if unfavorable action current_price stop then Returned 0
        else
          let unit_risk := abs (current_price - stop) in
          if unit_risk =? 0 then Returned 0
          else Sized (risk_amount_for_this_trade / unit_risk)
    end
  else if String.eqb (position_sizing_method r) "fixed_amount_per_trade" then
    Sized (risk_amount_for_this_trade / current_price)
  else if String.eqb (position_sizing_method r) "fixed_quantity" then
    Returned infinity
  else Returned 0.

Definition calculate_max_position_size (symbol : string) (current_price : float)
    (portfolio_state : PortfolioState) (stop_loss_price : option float)
    (action : string) (r : t) : Py.outcome float * t :=
  if is_empty portfolio_state || (current_price <=? 0) then (Py.Ok 0, r)
  else
    let r1 := update_portfolio_state portfolio_state r in
    if max_drawdown_limit_pct r1 <=? _calculate_current_drawdown r1
    then (Py.Ok 0, r1)
    else
      let capital_for_risk_calc := current_capital r1 in
      let remaining_total_risk_budget :=
        (capital_for_risk_calc * max_total_risk_pct r1)
        - current_total_risk_amount r1 in
      let risk_amount_for_this_trade :=
        Py.min (capital_for_risk_calc * max_risk_per_trade_pct r1)
               (Py.max 0 remaining_total_risk_budget) in
      if risk_amount_for_this_trade <=? 0 then (Py.Ok 0, r1)
      else
        match size_by_method r1 action current_price stop_loss_price
                             risk_amount_for_this_trade with
        | Returned q => (Py.Ok q, r1)
        | Sized q0 =>
          let max_value_for_asset_overall :=
            capital_for_risk_calc * max_position_pct_asset r1 in
          let max_qty_by_asset_limit :=
            max_value_for_asset_overall / current_price in
          let max_investment_from_cash :=
            Py.get_or 0 (ps_cash portfolio_state)
            - capital_for_risk_calc * min_cash_balance_pct r1 in
          if String.eqb action "BUY" && (max_investment_from_cash <=? 0)
          then (Py.Ok 0, r1)
          else
            let q1 :=
              if String.eqb action "BUY"
              then Py.min q0 (max_investment_from_cash / current_price)
              else q0 in
            let q2 := Py.min q1 max_qty_by_asset_limit in
            let max_order_val := capital_for_risk_calc * max_order_value_pct r1 in
            let q3 := Py.min q2 (max_order_val / current_price) in
            let q4 :=
              match data_provider r1 with
              | Some limits => limits symbol current_price q3
              | None => q3
              end in
            (Py.whole q4, r1)
        end.

Definition zero_with_reason (reason : string) (o : Order) : Order :=
  with_reason [Lit reason] (with_quantity 0 o).

(** The quantity of an entry order before it is made whole, with the
    reason the branch records, if it records one. *)
Definition entry_quantity (original_order : Order) (action symbol : string)
    (price : float) (portfolio_state : PortfolioState)
    (position_state : option Portfolio.Position) (r : t)
  : Py.outcome (float * option fstring) * t :=
  let requested_quantity := o_quantity original_order in
  let stop_loss_price := o_stop_loss_price original_order in
  let current_holding_qty := holding position_state in
  let fixed := String.eqb (position_sizing_method r) "fixed_quantity" in
  if match requested_quantity with None => true | Some _ => false end
     || negb fixed
  then
    let '(res, r1) :=
      calculate_max_position_size symbol price portfolio_state
                                  stop_loss_price action r in
    match res with
    | Py.Raise e => (Py.Raise e, r1)
    | Py.Ok max_total_allowable_qty_for_symbol =>
        let held :=
          if String.eqb action "BUY" then current_holding_qty
          else abs current_holding_qty in
        let room := max_total_allowable_qty_for_symbol - held in
        match requested_quantity with
        | Some (QNum requested) =>
            (Py.Ok (Py.max 0 (Py.min requested room), None), r1)
        | Some QAll => (Py.Ok (0, None), r1)
        | None => (Py.Ok (Py.max 0 room, None), r1)
        end
    end
  else
    match requested_quantity with
    | Some (QNum requested) =>
        let '((is_valid, reason), r1) :=
          validate_signal original_order (Some portfolio_state)
                          position_state r in
        if is_valid then (Py.Ok (requested, None), r1)
        else (Py.Ok (0, Some reason), r1)
    | Some QAll => (Py.Ok (0, Some [Lit "Invalid fixed quantity."]), r)
    | None =>
        (Py.Ok (0, Some [Lit "Fixed_quantity sizing method but no quantity in signal."]), r)
    end.

Definition set_reason (reason : option fstring) (o : Order) : Order :=
  match reason with
  | Some text => with_reason text o
  | None => o
  end.

Definition default_reason (reason : string) (o : Order) : Order :=
  match o_reason o with
  | Some _ => o
  | None => with_reason [Lit reason] o
  end.

(** The last statement of [adjust_order_size] before it returns. *)
Definition finish (o : Order) : Order :=
  let zero :=
    match o_quantity o with
    | None => true
    | Some (QNum x) => x =? 0
    | Some QAll => false
    end in
  if zero then default_reason "Quantity is zero after adjustment." o else o.

Definition adjust_order_size (original_order : Order)
    (portfolio_state : PortfolioState)
    (position_state : option Portfolio.Position) (r : t)
  : Py.outcome Order * t :=
  let adjusted_order := original_order in
  let action := Py.upper (Py.get_or EmptyString (o_action adjusted_order)) in
  let stop_loss_price := o_stop_loss_price adjusted_order in
  let requested_quantity := o_quantity adjusted_order in
  let r0 := update_portfolio_state portfolio_state r in
  let invalid :=
    (Py.Ok (zero_with_reason "Invalid order fields (action, symbol, price)."
                             adjusted_order), r0) in
  match o_symbol adjusted_order, o_price adjusted_order with
  | Some symbol, Some price =>
    if negb (Py.truthy_str action && Py.truthy_str symbol && Py.truthy price)
       || (price <=? 0)
    then invalid
    else
      let current_holding_qty := holding position_state in
      if is_entry action then
        if max_drawdown_limit_pct r0 <=? _calculate_current_drawdown r0 then
          (Py.Ok (zero_with_reason "Max drawdown limit reached." adjusted_order),
           _remove_position_risk symbol r0)
        else if (match requested_quantity with
                 | None => true
                 | Some _ => false
                 end
                 || negb (String.eqb (position_sizing_method r0) "fixed_quantity"))
                && String.eqb (position_sizing_method r0) "percent_risk"
                && invalid_stop stop_loss_price
        then
          (Py.Ok (zero_with_reason
                    "'percent_risk' sizing requires valid 'stop_loss_price' in signal."
                    adjusted_order),
           _remove_position_risk symbol r0)
        else
          let '(res, r1) :=
            entry_quantity original_order action symbol price portfolio_state
                           position_state r0 in
          match res with
          | Py.Raise e => (Py.Raise e, r1)
          | Py.Ok (raw_quantity, reason) =>
            let adjusted_order := set_reason reason adjusted_order in
            match Py.whole raw_quantity with
            | Py.Raise e => (Py.Raise e, r1)
            | Py.Ok final_quantity =>
              let calculated_risk_for_trade :=
                if (0 <? final_quantity) && Py.truthy_ofloat stop_loss_price
                then _get_risk_amount_for_trade
                       price (Py.get_or 0 stop_loss_price) final_quantity
                else 0 in
              let adjusted_order := with_quantity final_quantity adjusted_order in
              if 0 <? final_quantity then
                (Py.Ok (finish (with_calculated_risk calculated_risk_for_trade
                                                     adjusted_order)),
                 _add_position_risk symbol calculated_risk_for_trade r1)
              else
                (Py.Ok (finish (default_reason "Calculated quantity is zero."
                                               adjusted_order)),
                 _remove_position_risk symbol r1)
            end
          end
      else if is_exit action then
        let qty_to_trade :=
          match requested_quantity with
          | Some QAll => current_holding_qty
          | Some (QNum requested) => Py.min requested current_holding_qty
          | None => 0
          end in
        match Py.whole (Py.max 0 qty_to_trade) with
        | Py.Raise e => (Py.Raise e, r0)
        | Py.Ok final_quantity =>
          let adjusted_order := with_quantity final_quantity adjusted_order in
          if (current_holding_qty <=? final_quantity) && (0 <? current_holding_qty)
          then
            (Py.Ok (finish (with_reason [Lit "Position closed."] adjusted_order)),
             _remove_position_risk symbol r0)
          else if 0 <? final_quantity then
            (Py.Ok (finish (with_reason
                              [Lit "Partial exit. Original risk for ";
                               Str symbol; Lit " removed."]
                              adjusted_order)),
             _remove_position_risk symbol r0)
          else (Py.Ok (finish adjusted_order), r0)
        end
      else (Py.Ok (finish adjusted_order), r0)
  | _, _ => invalid
  end.

End SimpleRiskManager.

(** ** The order pipeline: [execution_module/order_handler.py] *)

Module OrderHandler.

(** The handler holds a broker client, and optionally a risk manager and a
    portfolio, behind the interfaces [BaseBroker] and [BaseRiskManager]:
    their methods act on the objects the handler can reach, [W], and
    either return or raise. *)
Class Collaborators (W : Type) := {
  risk_manager_and_portfolio : W -> bool;
  get_summary : W -> Py.outcome SimpleRiskManager.PortfolioState * W;
  get_position :
    option string -> W -> Py.outcome (option Portfolio.Position) * W;
  validate_signal :
    Order -> SimpleRiskManager.PortfolioState -> option Portfolio.Position ->
    W -> Py.outcome (bool * fstring) * W;
  adjust_order_size :
    Order -> SimpleRiskManager.PortfolioState -> option Portfolio.Position ->
    W -> Py.outcome Order * W;
  place_order : Order -> W -> Py.outcome Result * W
}.

(** [not signal]: no dictionary, or one without keys. *)
Definition no_keys (o : Order) : bool :=
  match o_action o, o_symbol o, o_quantity o, o_price o,
        o_stop_loss_price o with
  | None, None, None, None, None =>
      match o_order_type o, o_stop_price o, o_reason o,
            o_calculated_risk o, o_order_id o with
      | None, None, None, None, None => true
      | _, _, _, _, _ => false
      end
  | _, _, _, _, _ => false
  end.

(** [adjusted_order.get('quantity', 0) <= 0]. *)
Definition quantity_le_zero (q : option Qty) : Py.outcome bool :=
  match q with
  | None => Py.Ok true
  | Some (QNum x) => Py.Ok (x <=? 0)
  | Some QAll =>
      Py.Raise (Py.PyExn "TypeError"
                  "'<=' not supported between instances of 'str' and 'int'")
  end.

Definition is_hold (action : option string) : bool :=
  match action with
  | Some a => String.eqb a "HOLD"
  | None => false
  end.

Section Pipeline.
Context {W : Type} `{Collaborators W}.

(** Step 1 of [process_signal]: the order to place, or the result
    returned at once. *)
Definition risk_stage (signal : Order) (w : W)
  : Py.outcome (Order + Result) * W :=
  if risk_manager_and_portfolio w then
    let '(summary, w1) := get_summary w in
    match summary with
    | Py.Raise e => (Py.Raise e, w1)
    | Py.Ok portfolio_summary =>
      let '(position, w2) := get_position (o_symbol signal) w1 in
      match position with
      | Py.Raise e => (Py.Raise e, w2)
      | Py.Ok current_position =>
        let '(verdict, w3) :=
          validate_signal signal portfolio_summary current_position w2 in
        match verdict with
        | Py.Raise e => (Py.Raise e, w3)
        | Py.Ok (false, reason) =>
            (Py.Ok (inr (mkResult "rejected_risk" None reason None None
                                  None (Some signal))), w3)
        | Py.Ok (true, _) =>
          let '(adjusted, w4) :=
            adjust_order_size signal portfolio_summary current_position w3 in
          match adjusted with
          | Py.Raise e => (Py.Raise e, w4)
          | Py.Ok adjusted_order =>
            match quantity_le_zero (o_quantity adjusted_order) with
            | Py.Raise e => (Py.Raise e, w4)
            | Py.Ok zero =>
              if zero && negb (is_hold (o_action adjusted_order)) then
                (Py.Ok (inr (mkResult "rejected_risk_adjusted_to_zero" None
                               (Py.get_or
                                  [Lit "Quantity zero after risk adjustment"]
                                  (o_reason adjusted_order))
                               None None None (Some signal))), w4)
              else (Py.Ok (inl adjusted_order), w4)
            end
          end
        end
      end
    end
  else (Py.Ok (inl signal), w).

(** Step 3: the call of the broker inside [try ... except Exception]: an
    instance of [Exception] becomes a "failed" result, any other exception
    leaves the handler. *)
Definition place (order_to_place : Order) (w : W) : Py.outcome Result * W :=
  let '(execution_result, w1) := place_order order_to_place w in
  match execution_result with
  | Py.Ok r => (Py.Ok r, w1)
  | Py.Raise e =>
      if Py.is_exception e then
        (Py.Ok (mkResult "failed" None
                         [Lit "Exception during order placement: ";
                          Str (Py.exn_msg e)]
                         None None (Some order_to_place) None), w1)
      else (Py.Raise e, w1)
  end.

Definition process_signal (signal : option Order) (w : W)
  : Py.outcome Result * W :=
  let ignored :=
    (Py.Ok (mkResult "ignored" None [Lit "Signal was HOLD or invalid."]
                     None None None None), w) in
  match signal with
  | None => ignored
  | Some signal =>
    if no_keys signal
       || String.eqb (Py.upper (Py.get_or EmptyString (o_action signal))) "HOLD"
    then ignored
    else
      let '(staged, w1) := risk_stage signal w in
      match staged with
      | Py.Raise e => (Py.Raise e, w1)
      | Py.Ok (inr rejected) => (Py.Ok rejected, w1)
      | Py.Ok (inl order_to_place) =>
        let order_to_place :=
          match o_order_type order_to_place with
          | Some _ => order_to_place
          | None => with_order_type "MARKET" order_to_place
          end in
        if String.eqb (Py.upper (Py.get_or EmptyString (o_order_type order_to_place)))
                      "LIMIT"
           && negb (Py.truthy_ofloat (o_price order_to_place))
        then
          (Py.Ok (mkResult "failed" None [Lit "LIMIT order missing price"]
                           None None (Some order_to_place) None), w1)
        else place order_to_place w1
      end
  end.
End Pipeline.

(** The handler of a backtest: a simulated broker whose ledger is also the
    handler's portfolio, and a risk manager, when the handler has them. *)
Record Backtest := mkBacktest {
  broker : SimulatedBroker.t;
  risk_manager : option SimpleRiskManager.t;
  clock : string;
  next_id : string
}.

Definition with_broker (b : SimulatedBroker.t) (w : Backtest) : Backtest :=
  mkBacktest b (risk_manager w) (clock w) (next_id w).

Definition with_risk_manager (r : SimpleRiskManager.t) (w : Backtest)
  : Backtest :=
  mkBacktest (broker w) (Some r) (clock w) (next_id w).

Definition with_portfolio (p : Portfolio.t) (w : Backtest) : Backtest :=
  with_broker (SimulatedBroker.with_portfolio_ref (Some p) (broker w)) w.

Definition attribute_error : Py.exn :=
  Py.PyExn "AttributeError" "'NoneType' object has no attribute".

(** [Portfolio.get_summary()] as the dictionary the risk manager reads: it
    has neither a ['total_value'] nor a ['cash'] key. *)
Definition summary_state (s : Portfolio.Summary)
  : SimpleRiskManager.PortfolioState :=
  SimpleRiskManager.mkPortfolioState None None true.

#[export] Instance backtest_collaborators : Collaborators Backtest := {
  risk_manager_and_portfolio w :=
    match risk_manager w, SimulatedBroker.portfolio_ref (broker w) with
    | Some _, Some _ => true
    | _, _ => false
    end;
  get_summary w :=
    match SimulatedBroker.portfolio_ref (broker w) with
    | Some p =>
        let '(s, p1) := Portfolio.get_summary (clock w) p in
        (Py.Ok (summary_state s), with_portfolio p1 w)
    | None => (Py.Raise attribute_error, w)
    end;
  get_position symbol w :=
    match SimulatedBroker.portfolio_ref (broker w), symbol with
    | Some p, Some s =>
        let '(pos, p1) := Portfolio.get_position s p in
        (Py.Ok pos, with_portfolio p1 w)
    | Some p, None => (Py.Ok None, w)
    | None, _ => (Py.Raise attribute_error, w)
    end;
  validate_signal o ps pos w :=
    match risk_manager w with
    | Some r =>
        let '(v, r1) := SimpleRiskManager.validate_signal o (Some ps) pos r in
        (Py.Ok v, with_risk_manager r1 w)
    | None => (Py.Raise attribute_error, w)
    end;
  adjust_order_size o ps pos w :=
    match risk_manager w with
    | Some r =>
        let '(a, r1) := SimpleRiskManager.adjust_order_size o ps pos r in
        (a, with_risk_manager r1 w)
    | None => (Py.Raise attribute_error, w)
    end;
  place_order o w :=
    match SimulatedBroker.place_order (clock w) (next_id w) o (broker w) with
    | Py.Ok (r, b1) => (Py.Ok r, with_broker b1 w)
    | Py.Raise e => (Py.Raise e, w)
    end
}.

End OrderHandler.

(** ** Concrete ledgers, brokers and orders used in the examples below *)

Module Scenario.

(** A ledger opened with 12345.67 in cash, and a SELL fill of 100 AAPL at
    150.0, a symbol the ledger never held. *)
Definition odd_cash_ledger : Portfolio.t := Portfolio.init "t0" 12345.67 None.

Definition unheld_sell : Portfolio.Fill :=
  Portfolio.mkFill (Some "t1") (Some "AAPL") (Some "SELL") (Some 100)
                   (Some 150) (Some 0) None.

(** A fill of [q] shares of AAPL at [price], without commission. *)
Definition fill_of (action : string) (q price : float) : Portfolio.Fill :=
  Portfolio.mkFill None (Some "AAPL") (Some action) (Some q) (Some price)
                   (Some 0) None.

(** A connected broker with [cash] in its account and a ledger of the same
    cash attached; no market data provider. *)
Definition connected_broker (cash : float) : SimulatedBroker.t :=
  snd (SimulatedBroker.connect
         (SimulatedBroker.set_portfolio_reference
            (Portfolio.init "t0" cash None)
            (SimulatedBroker.init
               (SimulatedBroker.mkConfig (Some cash) None None None None)))).

(** An order for [q] shares of AAPL. *)
Definition order_of (action order_type : string) (q : float)
    (price stop_price : option float) : Order :=
  mkOrder (Some action) (Some "AAPL") (Some (QNum q)) price None
          (Some order_type) stop_price None None None.

(** The broker a call leaves, or the one it started from when it raised. *)
Definition broker_after (call : Py.outcome (Result * SimulatedBroker.t))
    (b : SimulatedBroker.t) : SimulatedBroker.t :=
  match call with
  | Py.Ok (_, b') => b'
  | Py.Raise _ => b
  end.

(** Market data with one bar, for AAPL, closing at [close]. *)
Definition bar_at (close : float) : Py.dict SimulatedBroker.Bar :=
  [("AAPL", SimulatedBroker.mkBar (Some close) (Some close) (Some close)
                                  (Some close))].

(** A data provider whose current price is [price] for every symbol. *)
Definition quote (price : float) : Portfolio.provider := fun _ => Some price.

(** Scenario A: a fresh risk manager with 100000 of capital and
    [max_risk_per_trade_pct = 0.02], every other setting at its default; a
    portfolio worth 100000, all in cash; a BUY of 100 AAPL at 50 with the
    stop at 45. *)
Definition manager_a : SimpleRiskManager.t :=
  SimpleRiskManager.init
    (SimpleRiskManager.mkConfig (Some 100000) (Some 0.02) None None None None
                                None None).

Definition snapshot (total_value cash : float)
  : SimpleRiskManager.PortfolioState :=
  SimpleRiskManager.mkPortfolioState (Some total_value) (Some cash) false.

Definition signal_of (action : string) (q : option Qty)
    (price stop_loss_price : option float) : Order :=
  mkOrder (Some action) (Some "AAPL") q price stop_loss_price None None None
          None None.

Definition buy_a : Order :=
  signal_of "BUY" (Some (QNum 100)) (Some 50) (Some 45).

(** A position of [q] AAPL bought at [price]. *)
Definition held (q price : float) : Portfolio.Position :=
  Portfolio.mkPosition q price (q * price) 0 (Some price) (Some (q * price))
                       (Some 0).

(** A ledger that bought 10 AAPL at 150 and sold them at 155: the record of
    AAPL is kept, closed, with a realized PnL of 50. *)
Definition closed_ledger : Portfolio.t :=
  Portfolio.update_fill "t2" (fill_of "SELL" 10 155)
    (Portfolio.update_fill "t1" (fill_of "BUY" 10 150)
       (Portfolio.init "t0" 100000 None)).

(** [KeyboardInterrupt], which is not an instance of [Exception]. *)
Definition keyboard_interrupt : Py.exn :=
  Py.PyBaseExn "KeyboardInterrupt" EmptyString.

(** A handler without risk manager and portfolio whose broker client is
    interrupted while it places the order: [place_order] raises
    [KeyboardInterrupt]. *)
Definition interrupted_broker : OrderHandler.Collaborators unit := {|
  OrderHandler.risk_manager_and_portfolio := fun _ => false;
  OrderHandler.get_summary :=
    fun w => (Py.Raise OrderHandler.attribute_error, w);
  OrderHandler.get_position :=
    fun _ w => (Py.Raise OrderHandler.attribute_error, w);
  OrderHandler.validate_signal :=
    fun _ _ _ w => (Py.Raise OrderHandler.attribute_error, w);
  OrderHandler.adjust_order_size :=
    fun _ _ _ w => (Py.Raise OrderHandler.attribute_error, w);
  OrderHandler.place_order := fun _ w => (Py.Raise keyboard_interrupt, w)
|}.

End Scenario.

(** * Facts *)

(** ** The Python values at work *)

Module PyExamples.

Example upper_mixed_case : Py.upper "Sell" = "SELL".
Proof. reflexivity. Qed.

Example int_truncates_towards_zero :
  Py.int 400.7 = Py.Ok 400%Z /\ Py.int (-3.5) = Py.Ok (-3)%Z.
Proof. split; reflexivity. Qed.

Example int_of_infinity_raises :
  Py.int infinity
  = Py.Raise (Py.PyExn "OverflowError" "cannot convert float infinity to integer").
Proof. reflexivity. Qed.

Example whole_shares : Py.whole 199.99 = Py.Ok 199.
Proof. reflexivity. Qed.

Example min_keeps_first_on_nan : Py.min nan 1 = nan /\ Py.min 1 nan = 1.
Proof. split; reflexivity. Qed.

Example dict_assignment_keeps_order :
  Py.set "a" 3%Z [("a", 1%Z); ("b", 2%Z)] = [("a", 3%Z); ("b", 2%Z)]
  /\ Py.set "c" 3%Z [("a", 1%Z); ("b", 2%Z)]
     = [("a", 1%Z); ("b", 2%Z); ("c", 3%Z)].
Proof. split; reflexivity. Qed.

(** Adding and subtracting the same amount need not give the number back. *)
Example add_sub_is_not_exact : (12345.67 + 15000) - 15000 = 12345.669999999998.
Proof. reflexivity. Qed.

End PyExamples.

(** ** Binary64 comparisons and the neutral elements the ledger relies on *)

Module FloatFacts.

Lemma SFltb_irrefl (x : spec_float) : SFltb x x = false.
Proof.
  unfold SFltb. destruct x as [s|s| |s m e]; simpl; try reflexivity.
  - destruct s; reflexivity.
  - destruct s; rewrite Z.compare_refl, Pos.compare_cont_refl; reflexivity.
Qed.

Lemma ltb_irrefl (x : float) : (x <? x) = false.
Proof. rewrite ltb_spec. apply SFltb_irrefl. Qed.

Lemma SFcompare_Lt_swap (x y : spec_float) :
  SFcompare x y = Some Lt -> SFcompare y x = Some Gt.
Proof.
  destruct x as [s|s| |s m e], y as [s'|s'| |s' m' e']; simpl;
    try discriminate; try (destruct s; discriminate || reflexivity);
    try (destruct s'; discriminate || reflexivity);
    try (destruct s, s'; discriminate || reflexivity).
  destruct s, s'; try discriminate; try reflexivity;
    rewrite (Z.compare_antisym e e'); destruct (e ?= e')%Z eqn:E; simpl;
      try discriminate; try reflexivity;
      replace (Pos.compare_cont Eq m' m) with (CompOpp (Pos.compare_cont Eq m m'))
        by apply (Pos.compare_cont_antisym m m' Eq);
      destruct (Pos.compare_cont Eq m m'); simpl; discriminate || reflexivity.
Qed.

(** [x < y] excludes [y <= x] and [y < x]. *)
Lemma ltb_leb_false (x y : float) : (x <? y) = true -> (y <=? x) = false.
Proof.
  rewrite ltb_spec, leb_spec. unfold SFltb, SFleb.
  destruct (SFcompare (Prim2SF x) (Prim2SF y)) as [[ | | ]|] eqn:E;
    try discriminate.
  intros _. rewrite (SFcompare_Lt_swap _ _ E). reflexivity.
Qed.

Lemma ltb_asym (x y : float) : (x <? y) = true -> (y <? x) = false.
Proof.
  rewrite !ltb_spec. unfold SFltb.
  destruct (SFcompare (Prim2SF x) (Prim2SF y)) as [[ | | ]|] eqn:E;
    try discriminate.
  intros _. rewrite (SFcompare_Lt_swap _ _ E). reflexivity.
Qed.

Lemma Prim2SF_zero : Prim2SF 0 = S754_zero false.
Proof. reflexivity. Qed.

(** [0 + x] is [x] for a positive [x]: a first purchase holds what it
    bought. *)
Lemma add_0_l (x : float) : (0 <? x) = true -> 0 + x = x.
Proof.
  intros H. apply Prim2SF_inj. rewrite add_spec.
  rewrite ltb_spec in H. rewrite Prim2SF_zero in *.
  unfold SFltb in H. unfold SF64add.
  destruct (Prim2SF x) as [s|s| |s m e]; simpl in *; try discriminate;
    reflexivity.
Qed.

(** Adding or subtracting a zero commission. *)
Lemma sub_0_r (x : float) : x - 0 = x.
Proof.
  apply Prim2SF_inj. rewrite sub_spec, Prim2SF_zero. unfold SF64sub.
  destruct (Prim2SF x) as [s|s| |s m e]; simpl; try reflexivity.
  destruct s; reflexivity.
Qed.

Lemma add_0_r (x : float) : Prim2SF x <> S754_zero true -> x + 0 = x.
Proof.
  intros H. apply Prim2SF_inj. rewrite add_spec, Prim2SF_zero. unfold SF64add.
  destruct (Prim2SF x) as [s|s| |s m e]; simpl; try reflexivity.
  destruct s; [contradiction H|]; reflexivity.
Qed.

Lemma add_0_l_nonneg (x : float) : Prim2SF x <> S754_zero true -> 0 + x = x.
Proof.
  intros H. apply Prim2SF_inj. rewrite add_spec, Prim2SF_zero. unfold SF64add.
  destruct (Prim2SF x) as [s|s| |s m e]; simpl; try reflexivity.
  destruct s; [contradiction H|]; reflexivity.
Qed.

Lemma binary_round_aux_sign (mx ex : Z) (lx : location) :
  binary_round_aux prec emax false mx ex lx <> S754_zero true.
Proof.
  unfold binary_round_aux.
  destruct (shr_fexp prec emax mx ex lx) as [mrs' e'].
  destruct (shr_fexp prec emax _ e' loc_Exact) as [mrs'' e''].
  destruct (shr_m mrs''); try discriminate.
  destruct (_ <=? _)%Z; discriminate.
Qed.

(** The product of two positive numbers is not the negative zero (it may
    be [+0] by underflow or [+inf] by overflow). *)
Lemma mul_pos_sign (x y : float) :
  (0 <? x) = true -> (0 <? y) = true -> Prim2SF (x * y) <> S754_zero true.
Proof.
  rewrite !ltb_spec, mul_spec, Prim2SF_zero. unfold SFltb, SF64mul.
  destruct (Prim2SF x) as [s|s| |s m e], (Prim2SF y) as [s'|s'| |s' m' e'];
    simpl; intros Hx Hy; try discriminate;
    try (destruct s; discriminate); try (destruct s'; discriminate).
  destruct s, s'; try discriminate. apply binary_round_aux_sign.
Qed.

(** What is at most a number that is not positive is at most 0. *)
Lemma leb_nonpos (x y : float) :
  (x <=? y) = true -> (0 <? y) = false -> (x <=? 0) = true.
Proof.
  rewrite !leb_spec, ltb_spec, Prim2SF_zero. unfold SFleb, SFltb.
  destruct (Prim2SF x) as [s|s| |s m e], (Prim2SF y) as [s'|s'| |s' m' e'];
    simpl; intros L N; try discriminate; try reflexivity;
    try (destruct s; discriminate || reflexivity);
    try (destruct s'; discriminate || reflexivity);
    try (destruct s, s'; discriminate || reflexivity).
Qed.

Lemma shl_align_same (m : positive) (e : Z) : shl_align m e e = (m, e).
Proof. unfold shl_align. rewrite Z.sub_diag. reflexivity. Qed.

Lemma SFsub_diag (x : spec_float) :
  SF64sub x x = S754_nan \/ SF64sub x x = S754_zero false.
Proof.
  unfold SF64sub. destruct x as [s|s| |s m e]; simpl.
  - right. destruct s; reflexivity.
  - left. destruct s; reflexivity.
  - left. reflexivity.
  - right. rewrite Z.min_id, shl_align_same. simpl. rewrite Z.sub_diag.
    reflexivity.
Qed.

(** [x - x] is never positive: it is [0], or NaN for an infinity or NaN. *)
Lemma sub_diag_not_pos (x : float) : (0 <? x - x) = false.
Proof.
  rewrite ltb_spec, sub_spec, Prim2SF_zero.
  destruct (SFsub_diag (Prim2SF x)) as [E|E]; rewrite E; reflexivity.
Qed.

Lemma sub_diag (x : float) : Py.is_finite x = true -> x - x = 0.
Proof.
  unfold Py.is_finite. intros H. apply Prim2SF_inj.
  rewrite sub_spec, Prim2SF_zero. unfold SF64sub.
  destruct (Prim2SF x) as [s|s| |s m e]; simpl in *; try discriminate.
  - destruct s; reflexivity.
  - rewrite Z.min_id, shl_align_same. simpl. rewrite Z.sub_diag. reflexivity.
Qed.

(** Adding a zero of either sign to a positive [x] gives [x]: a purchase
    into a closed position holds what it bought. *)
Lemma add_zero_l (z x : float) :
  (z =? 0) = true -> (0 <? x) = true -> z + x = x.
Proof.
  intros Z H. apply Prim2SF_inj. rewrite add_spec.
  rewrite eqb_spec in Z. rewrite ltb_spec in H. rewrite Prim2SF_zero in *.
  unfold SFeqb in Z. unfold SFltb in H. unfold SF64add.
  destruct (Prim2SF z) as [sz|sz| |sz mz ez]; simpl in Z; try discriminate;
    try (destruct sz; discriminate).
  destruct (Prim2SF x) as [s|s| |s m e]; simpl in *; try discriminate;
    reflexivity.
Qed.

(** The cost of a zero quantity at a finite price is a zero, and adding it
    to [x] gives [x], unless [x] is the negative zero. *)
Lemma zero_mul_add (z a x : float) :
  (z =? 0) = true -> Py.is_finite a = true ->
  Prim2SF x <> S754_zero true -> z * a + x = x.
Proof.
  intros Z A X. apply Prim2SF_inj. rewrite add_spec, mul_spec.
  rewrite eqb_spec in Z. rewrite Prim2SF_zero in Z.
  unfold SFeqb in Z. unfold Py.is_finite in A. unfold SF64add, SF64mul.
  destruct (Prim2SF z) as [sz|sz| |sz mz ez]; simpl in Z; try discriminate;
    try (destruct sz; discriminate).
  destruct (Prim2SF a) as [sa|sa| |sa ma ea]; simpl in A; try discriminate;
    simpl;
    (destruct (Prim2SF x) as [s|s| |s m e]; simpl; try reflexivity;
     destruct s; [contradiction X; reflexivity|];
     destruct (xorb sz sa); reflexivity).
Qed.

End FloatFacts.

(** ** Dictionaries *)

Module DictFacts.
Section Dict.
Context {V : Type}.
Implicit Types (d : Py.dict V) (k : string) (v : V).

Lemma get_set_same k v d : Py.get k (Py.set k v d) = Some v.
Proof.
  induction d as [|[k' v'] r IH]; simpl.
  - now rewrite String.eqb_refl.
  - destruct (String.eqb k k') eqn:E; simpl.
    + now rewrite String.eqb_refl.
    + now rewrite E.
Qed.

Lemma get_set_other k k' v d :
  String.eqb k k' = false -> Py.get k (Py.set k' v d) = Py.get k d.
Proof.
  intros N. induction d as [|[k0 v0] r IH]; simpl.
  - now rewrite N.
  - destruct (String.eqb k' k0) eqn:E; simpl.
    + apply String.eqb_eq in E. subst k0. now rewrite N.
    + destruct (String.eqb k k0); [reflexivity | exact IH].
Qed.

Lemma get_del_other k k' d :
  String.eqb k k' = false -> Py.get k (Py.del k' d) = Py.get k d.
Proof.
  intros N. induction d as [|[k0 v0] r IH]; simpl; [reflexivity|].
  destruct (String.eqb k' k0) eqn:E; simpl.
  - apply String.eqb_eq in E. subst k0. now rewrite N.
  - destruct (String.eqb k k0); [reflexivity | exact IH].
Qed.

Lemma set_set k v v' d : Py.set k v (Py.set k v' d) = Py.set k v d.
Proof.
  induction d as [|[k0 v0] r IH]; simpl.
  - now rewrite String.eqb_refl.
  - destruct (String.eqb k k0) eqn:E; simpl.
    + now rewrite String.eqb_refl.
    + now rewrite E, IH.
Qed.

Lemma mem_set k v d : Py.mem k (Py.set k v d) = true.
Proof. unfold Py.mem. now rewrite get_set_same. Qed.

(** What is in a dictionary after an assignment was there before, or is the
    value assigned. *)
Lemma in_set k v d (x : string * V) :
  In x (Py.set k v d) -> x = (k, v) \/ In x d.
Proof.
  induction d as [|[k0 v0] r IH]; simpl.
  - intros [E|[]]. now left.
  - destruct (String.eqb k k0); simpl.
    + intros [E|I]; [now left | now right; right].
    + intros [E|I]; [now right; left |].
      destruct (IH I) as [E|I']; [now left | now right; right].
Qed.

Lemma in_del k d (x : string * V) : In x (Py.del k d) -> In x d.
Proof.
  induction d as [|[k0 v0] r IH]; simpl; [tauto|].
  destruct (String.eqb k k0); simpl; [now right|].
  intros [E|I]; [now left | right; now apply IH].
Qed.

Lemma get_in k v d : Py.get k d = Some v -> In (k, v) d.
Proof.
  induction d as [|[k0 v0] r IH]; simpl; [discriminate|].
  destruct (String.eqb k k0) eqn:E.
  - apply String.eqb_eq in E. subst k0. intros [= ->]. now left.
  - intros G. right. now apply IH.
Qed.

Lemma get_key_in k v d : Py.get k d = Some v -> In k (Py.keys d).
Proof. intros G. apply get_in in G. apply (in_map fst) in G. exact G. Qed.

End Dict.
End DictFacts.

(** ** The ledger *)

Module PortfolioFacts.
Import Portfolio.

Lemma mark_idem prov s pos : mark prov s (mark prov s pos) = mark prov s pos.
Proof.
  unfold mark. destruct (quantity pos =? 0) eqn:E; simpl; rewrite E; reflexivity.
Qed.

Lemma mark_keeps prov s pos :
  quantity (mark prov s pos) = quantity pos
  /\ avg_price (mark prov s pos) = avg_price pos
  /\ total_cost (mark prov s pos) = total_cost pos
  /\ realized_pnl (mark prov s pos) = realized_pnl pos.
Proof. unfold mark. destruct (quantity pos =? 0); simpl; auto. Qed.

Lemma get_mark_symbol prov d a s :
  Py.get s (mark_symbol prov d a)
  = if String.eqb s a then option_map (mark prov a) (Py.get a d)
    else Py.get s d.
Proof.
  unfold mark_symbol. destruct (String.eqb s a) eqn:E.
  - apply String.eqb_eq in E. subst s.
    destruct (Py.get a d) eqn:G; simpl.
    + apply DictFacts.get_set_same.
    + exact G.
  - destruct (Py.get a d); [now apply DictFacts.get_set_other | reflexivity].
Qed.

(** Refreshing a list of symbols refreshes the record of each of them, once
    (refreshing is idempotent), and no other. *)
Lemma get_fold_mark prov l : forall d s,
  Py.get s (fold_left (mark_symbol prov) l d)
  = option_map (fun v => if existsb (String.eqb s) l then mark prov s v else v)
               (Py.get s d).
Proof.
  induction l as [|a l IH]; intros d s; simpl.
  - now destruct (Py.get s d).
  - rewrite IH, get_mark_symbol.
    destruct (String.eqb s a) eqn:E; simpl.
    + apply String.eqb_eq in E. subst a.
      destruct (Py.get s d); simpl; [|reflexivity].
      destruct (existsb (String.eqb s) l); [now rewrite mark_idem | reflexivity].
    + reflexivity.
Qed.

Lemma existsb_keys {V} (d : Py.dict V) s v :
  Py.get s d = Some v -> existsb (String.eqb s) (Py.keys d) = true.
Proof.
  intros G. apply existsb_exists. exists s. split.
  - now apply DictFacts.get_key_in with v.
  - apply String.eqb_refl.
Qed.

Lemma get_update_all s p :
  Py.get s (positions (_update_market_values None p))
  = option_map (mark (market_data_provider p) s) (Py.get s (positions p)).
Proof.
  unfold _update_market_values. simpl. rewrite get_fold_mark.
  destruct (Py.get s (positions p)) eqn:G; simpl; [|reflexivity].
  now rewrite (existsb_keys _ _ _ G).
Qed.

Lemma get_update_one s p :
  Py.get s (positions (_update_market_values (Some s) p))
  = option_map (mark (market_data_provider p) s) (Py.get s (positions p)).
Proof.
  unfold _update_market_values. destruct (Py.truthy_str s).
  - simpl. rewrite get_mark_symbol, String.eqb_refl. reflexivity.
  - apply (get_update_all s p).
Qed.

(** [_record_portfolio_value] touches the market values and the history
    only. *)
Lemma record_frame now p :
  cash (_record_portfolio_value now p) = cash p
  /\ trade_log (_record_portfolio_value now p) = trade_log p
  /\ positions (_record_portfolio_value now p)
     = positions (_update_market_values None p)
  /\ exists snapshot,
       portfolio_history (_record_portfolio_value now p)
       = (portfolio_history p ++ [snapshot])%list
       /\ s_cash snapshot = cash p.
Proof.
  unfold _record_portfolio_value, get_total_value. simpl.
  repeat split. eexists. split; reflexivity.
Qed.

Lemma log_trade_frame now fill pnl p :
  cash (log_trade now fill pnl p) = cash p
  /\ trade_log (log_trade now fill pnl p)
     = (trade_log p ++ [mkTrade fill pnl (cash p)])%list
  /\ (forall s, Py.get s (positions (log_trade now fill pnl p))
                = option_map (mark (market_data_provider p) s)
                             (Py.get s (positions p)))
  /\ exists snapshot,
       portfolio_history (log_trade now fill pnl p)
       = (portfolio_history p ++ [snapshot])%list.
Proof.
  unfold log_trade.
  destruct (record_frame now
              (_update_market_values None
                 (with_trade_log (trade_log p ++ [mkTrade fill pnl (cash p)]) p)))
    as (C & T & P & snapshot & H & _).
  rewrite C, T, P. repeat split.
  - intros s. rewrite !get_update_all. simpl.
    destruct (Py.get s (positions p)); simpl; [now rewrite mark_idem | reflexivity].
  - exists snapshot. exact H.
Qed.

(** The accepted BUY. *)
Lemma update_fill_buy now fill p symbol :
  f_symbol fill = Some symbol ->
  Py.upper (Py.get_or EmptyString (f_action fill)) = "BUY" ->
  Py.truthy_str symbol = true ->
  (0 <? Py.get_or 0 (f_quantity fill)) = true ->
  (0 <? Py.get_or 0 (f_price fill)) = true ->
  let q := Py.get_or 0 (f_quantity fill) in
  let price := Py.get_or 0 (f_price fill) in
  let commission := Py.get_or 0 (f_commission fill) in
  update_fill now fill p
  = log_trade now fill 0
      (with_positions
         (Py.set symbol
            (buy_position q price
               (Py.get_or fresh_position (Py.get symbol (positions p))))
            (positions p))
         (with_cash (cash p - ((q * price) + commission)) p)).
Proof.
  intros S A T Q P. unfold update_fill. rewrite S, A, T, Q, P. reflexivity.
Qed.

(** The accepted SELL. *)
Lemma update_fill_sell now fill p symbol pos :
  f_symbol fill = Some symbol ->
  Py.upper (Py.get_or EmptyString (f_action fill)) = "SELL" ->
  Py.truthy_str symbol = true ->
  (0 <? Py.get_or 0 (f_quantity fill)) = true ->
  (0 <? Py.get_or 0 (f_price fill)) = true ->
  Py.get symbol (positions p) = Some pos ->
  (quantity pos <? Py.get_or 0 (f_quantity fill)) = false ->
  let q := Py.get_or 0 (f_quantity fill) in
  let price := Py.get_or 0 (f_price fill) in
  let commission := Py.get_or 0 (f_commission fill) in
  update_fill now fill p
  = log_trade now fill (realized_pnl_this_trade q price commission pos)
      (with_positions
         (Py.set symbol (sell_position q price commission pos) (positions p))
         (with_cash (cash p + ((q * price) - commission)) p)).
Proof.
  intros S A T Q P G L. unfold update_fill. rewrite S, A, T, Q, P. simpl.
  rewrite G, L. reflexivity.
Qed.

(** The rejected SELL: only the cash is written, twice. *)
Lemma update_fill_rejected_sell now fill p symbol :
  f_symbol fill = Some symbol ->
  Py.upper (Py.get_or EmptyString (f_action fill)) = "SELL" ->
  let q := Py.get_or 0 (f_quantity fill) in
  let price := Py.get_or 0 (f_price fill) in
  let commission := Py.get_or 0 (f_commission fill) in
  match Py.get symbol (positions p) with
  | Some pos => (quantity pos <? q) = true
  | None => True
  end ->
  let p' := update_fill now fill p in
  positions p' = positions p
  /\ trade_log p' = trade_log p
  /\ portfolio_history p' = portfolio_history p
  /\ (cash p' = cash p
      \/ cash p' = (cash p + ((q * price) - commission)) - ((q * price) - commission)).
Proof.
  intros S A q price commission H. unfold update_fill. rewrite S, A.
  fold q price commission.
  destruct (negb _); [simpl; auto|].
  simpl. destruct (Py.get symbol (positions p)) as [pos|].
  - rewrite H. simpl. auto.
  - simpl. auto.
Qed.

Lemma get_position_spec symbol p :
  match Py.get symbol (positions p) with
  | Some held =>
      if 0 <? quantity held then
        fst (get_position symbol p)
        = Some (mark (market_data_provider p) symbol held)
      else get_position symbol p = (None, p)
  | None => get_position symbol p = (None, p)
  end.
Proof.
  unfold get_position. destruct (Py.get symbol (positions p)) as [held|] eqn:G.
  - destruct (0 <? quantity held); [|reflexivity].
    cbn [fst]. now rewrite get_update_one, G.
  - reflexivity.
Qed.

End PortfolioFacts.

(** * The claims about the ledger *)

Module PortfolioClaims.
Import Portfolio.

(** C1 (the code departs from it).  A SELL fill for more than is held, or
    for a symbol that is not held, must leave the whole ledger unchanged.
    [update_fill] credits the proceeds to the cash before it looks at the
    position and takes them back when it rejects the fill; in binary64 the
    two steps do not cancel.  Here a ledger with 12345.67 in cash receives a
    SELL of 100 AAPL at 150.0 without holding AAPL: positions, trade log and
    history stay as they were, and the cash becomes 12345.669999999998. *)
Theorem rejected_sell_moves_cash :
  let p := Scenario.odd_cash_ledger in
  let p' := update_fill "t1" Scenario.unheld_sell p in
  Py.get "AAPL" (positions p) = None
  /\ positions p' = positions p
  /\ trade_log p' = trade_log p
  /\ portfolio_history p' = portfolio_history p
  /\ cash p = 12345.67
  /\ cash p' = 12345.669999999998
  /\ (cash p' =? cash p) = false.
Proof.
  intros p p'.
  destruct (PortfolioFacts.update_fill_rejected_sell
              "t1" Scenario.unheld_sell p "AAPL" eq_refl eq_refl I)
    as (P & T & H & _).
  fold p' in P, T, H.
  split; [reflexivity|]. repeat (split; [assumption|]).
  repeat split; vm_compute; reflexivity.
Qed.

(** C8, as stated, fails: with 1000.1 in cash, buying and selling 7 shares
    at 10.01 without commission leaves 1000.0999999999999. *)
Lemma roundtrip_cash_drifts :
  let p0 := Portfolio.init "t0" 1000.1 None in
  let p2 :=
    update_fill "t2" (Scenario.fill_of "SELL" 7 10.01)
                (update_fill "t1" (Scenario.fill_of "BUY" 7 10.01) p0) in
  Py.get "AAPL" (positions p0) = None
  /\ cash p0 = 1000.1
  /\ cash p2 = 1000.0999999999999
  /\ (cash p2 =? cash p0) = false.
Proof. vm_compute. repeat split; reflexivity. Qed.

(** C8 (amended).  From a ledger with no record of the symbol, or with a
    closed record of it (quantity 0 and a finite average price), a BUY of
    [q] at [price] and a SELL of the same [q] at the same [price], both
    without commission, are both accepted and logged; with [x = q * price]
    the cash ends at [(cash - x) + x], the position is kept with quantity
    [q - q] and its realized_pnl ends at [r + (x - (x / q) * q)], where [r]
    is the realized PnL the record had retained, 0 when there was no
    record; every operation is the binary64 one.  When [(cash - x) + x] and
    [(x / q) * q] incur no rounding and [x] is finite, the cash is restored
    and the realized PnL is [r + 0]: 0 when there was no record. *)
Theorem roundtrip_buy_sell (now1 now2 : string) (ts1 ts2 id1 id2 : option string)
    (symbol : string) (q price : float) (p0 : Portfolio.t) :
  Py.truthy_str symbol = true ->
  (0 <? q) = true ->
  (0 <? price) = true ->
  let held := Py.get_or fresh_position (Py.get symbol (positions p0)) in
  (quantity held =? 0) = true ->
  Py.is_finite (avg_price held) = true ->
  let buy :=
    mkFill ts1 (Some symbol) (Some "BUY") (Some q) (Some price) (Some 0) id1 in
  let sell :=
    mkFill ts2 (Some symbol) (Some "SELL") (Some q) (Some price) (Some 0) id2 in
  let p2 := update_fill now2 sell (update_fill now1 buy p0) in
  let x := q * price in
  cash p2 = (cash p0 - x) + x
  /\ List.length (trade_log p2) = (List.length (trade_log p0) + 2)%nat
  /\ exists pos,
       Py.get symbol (positions p2) = Some pos
       /\ quantity pos = q - q
       /\ realized_pnl pos = realized_pnl held + (x - (x / q) * q)
       /\ (Py.get symbol (positions p0) = None ->
           realized_pnl pos = 0 + (x - (x / q) * q))
       /\ ((cash p0 - x) + x = cash p0 -> (x / q) * q = x ->
           Py.is_finite x = true ->
           cash p2 = cash p0
           /\ realized_pnl pos = realized_pnl held + 0
           /\ (Py.get symbol (positions p0) = None -> realized_pnl pos = 0)).
Proof.
  intros T Q P held Z A buy sell p2 x.
  assert (X : Prim2SF x <> S754_zero true)
    by (apply FloatFacts.mul_pos_sign; assumption).
  (* the BUY *)
  pose proof (PortfolioFacts.update_fill_buy now1 buy p0 symbol
                eq_refl eq_refl T Q P) as B.
  cbv zeta in B. cbn [f_quantity f_price f_commission buy Py.get_or] in B.
  fold held in B. fold x in B.
  rewrite (FloatFacts.add_0_r x X) in B.
  set (p1 := update_fill now1 buy p0) in *.
  destruct (PortfolioFacts.log_trade_frame now1 buy 0
              (with_positions
                 (Py.set symbol (buy_position q price held) (positions p0))
                 (with_cash (cash p0 - x) p0)))
    as (C1 & L1 & G1 & _).
  rewrite <- B in C1, L1, G1. cbn [cash with_positions with_cash] in C1.
  specialize (G1 symbol).
  cbn [positions with_positions market_data_provider with_cash] in G1.
  rewrite DictFacts.get_set_same in G1. cbn [option_map] in G1.
  set (pos1 := mark (market_data_provider p0) symbol
                    (buy_position q price held)) in *.
  destruct (PortfolioFacts.mark_keeps (market_data_provider p0) symbol
              (buy_position q price held)) as (K1 & K2 & K3 & K4).
  fold pos1 in K1, K2, K3, K4.
  assert (Q1 : quantity pos1 = q).
  { rewrite K1. cbn [quantity buy_position]. now apply FloatFacts.add_zero_l. }
  assert (A1 : avg_price pos1 = x / q).
  { rewrite K2. unfold buy_position. cbn [quantity avg_price].
    rewrite (FloatFacts.add_zero_l (quantity held) q Z Q), Q. fold x.
    now rewrite (FloatFacts.zero_mul_add (quantity held) (avg_price held) x Z A X). }
  assert (R1 : realized_pnl pos1 = realized_pnl held) by (rewrite K4; reflexivity).
  (* the SELL *)
  assert (NL : (quantity pos1 <? q) = false)
    by (rewrite Q1; apply FloatFacts.ltb_irrefl).
  pose proof (PortfolioFacts.update_fill_sell now2 sell p1 symbol pos1
                eq_refl eq_refl T Q P G1 NL) as S.
  cbv zeta in S. cbn [f_quantity f_price f_commission sell Py.get_or] in S.
  fold x in S. rewrite (FloatFacts.sub_0_r x) in S. fold p2 in S.
  destruct (PortfolioFacts.log_trade_frame now2 sell
              (realized_pnl_this_trade q price 0 pos1)
              (with_positions
                 (Py.set symbol (sell_position q price 0 pos1) (positions p1))
                 (with_cash (cash p1 + x) p1)))
    as (C2 & L2 & G2 & _).
  rewrite <- S in C2, L2, G2. cbn [cash with_positions with_cash] in C2.
  specialize (G2 symbol).
  cbn [positions with_positions market_data_provider with_cash] in G2.
  rewrite DictFacts.get_set_same in G2. cbn [option_map] in G2.
  destruct (PortfolioFacts.mark_keeps (market_data_provider p1) symbol
              (sell_position q price 0 pos1)) as (M1 & _ & _ & M4).
  assert (R2 : realized_pnl_this_trade q price 0 pos1 = x - (x / q) * q).
  { unfold realized_pnl_this_trade. rewrite A1. fold x.
    apply FloatFacts.sub_0_r. }
  split; [now rewrite C2, C1|].
  split.
  { rewrite L2. cbn [trade_log with_positions with_cash].
    rewrite L1. cbn [trade_log with_positions with_cash].
    rewrite !length_app. simpl. lia. }
  eexists. split; [exact G2|].
  split; [rewrite M1; cbn [quantity sell_position]; now rewrite Q1|].
  assert (RP : realized_pnl
                 (mark (market_data_provider p1) symbol
                       (sell_position q price 0 pos1))
               = realized_pnl held + (x - (x / q) * q)).
  { rewrite M4. cbn [realized_pnl sell_position]. now rewrite R1, R2. }
  assert (N : Py.get symbol (positions p0) = None -> realized_pnl held = 0).
  { intros G. unfold held. now rewrite G. }
  split; [exact RP|].
  split; [intros G; now rewrite RP, (N G)|].
  intros E1 E2 F.
  assert (RZ : realized_pnl
                 (mark (market_data_provider p1) symbol
                       (sell_position q price 0 pos1))
               = realized_pnl held + 0)
    by (rewrite RP, E2, (FloatFacts.sub_diag x F); reflexivity).
  split; [now rewrite C2, C1|].
  split; [exact RZ|].
  intros G. rewrite RZ, (N G). reflexivity.
Qed.

(** At 100000 in cash, 100 shares at 10.0, nothing is rounded: the cash is
    restored and the realized PnL is 0.  On the ledger that closed a position
    with a realized PnL of 50 the same round trip restores the cash and
    leaves the realized PnL at 50. *)
Lemma roundtrip_buy_sell_witness :
  (let p0 := Portfolio.init "t0" 100000 None in
   let p2 :=
     update_fill "t2" (Scenario.fill_of "SELL" 100 10)
                 (update_fill "t1" (Scenario.fill_of "BUY" 100 10) p0) in
   cash p2 = cash p0
   /\ exists pos, Py.get "AAPL" (positions p2) = Some pos /\ realized_pnl pos = 0)
  /\ (let p0 := Scenario.closed_ledger in
      let p2 :=
        update_fill "t4" (Scenario.fill_of "SELL" 100 10)
                    (update_fill "t3" (Scenario.fill_of "BUY" 100 10) p0) in
      option_map realized_pnl (Py.get "AAPL" (positions p0)) = Some 50
      /\ cash p2 = cash p0
      /\ exists pos,
           Py.get "AAPL" (positions p2) = Some pos /\ realized_pnl pos = 50).
Proof.
  split.
  - intros p0 p2.
    destruct (roundtrip_buy_sell "t1" "t2" None None None None "AAPL" 100 10 p0
                eq_refl eq_refl eq_refl eq_refl eq_refl)
      as (_ & _ & pos & G & _ & _ & _ & X).
    destruct (X eq_refl eq_refl eq_refl) as (C & _ & R).
    split; [exact C|]. exists pos. split; [exact G | exact (R eq_refl)].
  - intros p0 p2.
    destruct (roundtrip_buy_sell "t3" "t4" None None None None "AAPL" 100 10 p0
                eq_refl eq_refl eq_refl eq_refl eq_refl)
      as (_ & _ & pos & G & _ & _ & _ & X).
    destruct (X eq_refl eq_refl eq_refl) as (C & R & _).
    split; [reflexivity|]. split; [exact C|].
    exists pos. split; [exact G|]. rewrite R. reflexivity.
Defined.

(** When [q * price] overflows nothing is left of the cash: from 1000 in
    cash, 1e308 shares at 1e10 leave a cash and a realized PnL that are not
    numbers. *)
Lemma roundtrip_overflow :
  let p0 := Portfolio.init "t0" 1000 None in
  let p2 :=
    update_fill "t2" (Scenario.fill_of "SELL" 1e308 1e10)
                (update_fill "t1" (Scenario.fill_of "BUY" 1e308 1e10) p0) in
  Prim2SF (cash p2) = S754_nan
  /\ option_map (fun pos => Prim2SF (realized_pnl pos))
                (Py.get "AAPL" (positions p2)) = Some S754_nan.
Proof. vm_compute. split; reflexivity. Qed.

(** C10.  [get_position] returns a record only for a symbol that is in the
    ledger with a quantity above 0, and then the refreshed record; for a
    symbol never traded, and for one whose record has quantity 0, it returns
    none and leaves the ledger as it is.  And a SELL of the whole (finite)
    holding keeps the record, with quantity 0 and the realized PnL
    accumulated, out of sight of [get_position]. *)
Theorem get_position_only_open :
  (forall symbol p,
      (forall pos, fst (get_position symbol p) = Some pos ->
                   exists held,
                     Py.get symbol (positions p) = Some held
                     /\ (0 <? quantity held) = true
                     /\ pos = mark (market_data_provider p) symbol held)
      /\ (Py.get symbol (positions p) = None ->
          get_position symbol p = (None, p))
      /\ (forall held, Py.get symbol (positions p) = Some held ->
                       quantity held = 0 ->
                       get_position symbol p = (None, p)))
  /\ (forall now fill p symbol held,
         f_symbol fill = Some symbol ->
         Py.upper (Py.get_or EmptyString (f_action fill)) = "SELL" ->
         Py.truthy_str symbol = true ->
         (0 <? Py.get_or 0 (f_price fill)) = true ->
         Py.get symbol (positions p) = Some held ->
         Py.get_or 0 (f_quantity fill) = quantity held ->
         (0 <? quantity held) = true ->
         Py.is_finite (quantity held) = true ->
         let p' := update_fill now fill p in
         exists closed,
           Py.get symbol (positions p') = Some closed
           /\ quantity closed = 0
           /\ realized_pnl closed
              = realized_pnl held
                + realized_pnl_this_trade (quantity held)
                    (Py.get_or 0 (f_price fill))
                    (Py.get_or 0 (f_commission fill)) held
           /\ get_position symbol p' = (None, p')).
Proof.
  split.
  - intros symbol p. pose proof (PortfolioFacts.get_position_spec symbol p) as S.
    destruct (Py.get symbol (positions p)) as [held|] eqn:G.
    + destruct (0 <? quantity held) eqn:Q.
      * split; [|split].
        -- intros pos E. rewrite S in E. injection E as <-.
           exists held. auto.
        -- discriminate.
        -- intros h [= <-] Z. rewrite Z in Q. discriminate Q.
      * split; [|split].
        -- intros pos E. rewrite S in E. discriminate E.
        -- discriminate.
        -- intros _ _ _. exact S.
    + split; [|split].
      * intros pos E. rewrite S in E. discriminate E.
      * intros _. exact S.
      * discriminate.
  - intros now fill p symbol held S A T P G E Q F p'.
    assert (Q' : (0 <? Py.get_or 0 (f_quantity fill)) = true) by now rewrite E.
    assert (NL : (quantity held <? Py.get_or 0 (f_quantity fill)) = false)
      by (rewrite E; apply FloatFacts.ltb_irrefl).
    pose proof (PortfolioFacts.update_fill_sell now fill p symbol held
                  S A T Q' P G NL) as U.
    cbv zeta in U. rewrite E in U. fold p' in U.
    destruct (PortfolioFacts.log_trade_frame now fill
                (realized_pnl_this_trade (quantity held)
                   (Py.get_or 0 (f_price fill))
                   (Py.get_or 0 (f_commission fill)) held)
                (with_positions
                   (Py.set symbol
                      (sell_position (quantity held)
                         (Py.get_or 0 (f_price fill))
                         (Py.get_or 0 (f_commission fill)) held)
                      (positions p))
                   (with_cash
                      (cash p
                       + (quantity held * Py.get_or 0 (f_price fill)
                          - Py.get_or 0 (f_commission fill))) p)))
      as (_ & _ & G2 & _).
    rewrite <- U in G2. specialize (G2 symbol).
    cbn [positions with_positions market_data_provider with_cash] in G2.
    rewrite DictFacts.get_set_same in G2. cbn [option_map] in G2.
    match type of G2 with _ = Some ?c => set (closed := c) in * end.
    destruct (PortfolioFacts.mark_keeps (market_data_provider p) symbol
                (sell_position (quantity held)
                   (Py.get_or 0 (f_price fill))
                   (Py.get_or 0 (f_commission fill)) held))
      as (M1 & _ & _ & M4).
    fold closed in M1, M4.
    assert (Z : quantity closed = 0).
    { rewrite M1. cbn [quantity sell_position]. now apply FloatFacts.sub_diag. }
    exists closed. split; [exact G2|]. split; [exact Z|]. split.
    + rewrite M4. reflexivity.
    + pose proof (PortfolioFacts.get_position_spec symbol p') as S'.
      rewrite G2, Z in S'. exact S'.
Qed.

(** A ledger holding 10 AAPL sells them all: the record stays, closed, and
    [get_position] no longer shows it. *)
Lemma get_position_only_open_witness :
  let p := update_fill "t1" (Scenario.fill_of "BUY" 10 150)
                       (Portfolio.init "t0" 100000 None) in
  let p' := update_fill "t2" (Scenario.fill_of "SELL" 10 155) p in
  exists closed,
    Py.get "AAPL" (positions p') = Some closed
    /\ quantity closed = 0
    /\ realized_pnl closed = 50
    /\ get_position "AAPL" p' = (None, p').
Proof.
  intros p p'.
  destruct (proj2 get_position_only_open "t2" (Scenario.fill_of "SELL" 10 155) p
              "AAPL"
              (mkPosition 10 150 1500 0 (Some 150) (Some 1500) (Some 0))
              eq_refl eq_refl eq_refl eq_refl eq_refl eq_refl eq_refl eq_refl)
    as (closed & G & Z & R & N).
  exists closed. split; [exact G|]. split; [exact Z|]. split; [|exact N].
  rewrite R. reflexivity.
Defined.

End PortfolioClaims.

(** ** The broker *)

Module BrokerFacts.
Import SimulatedBroker.

(** What [settle_account] can do: it never touches the order book, the
    queue or the ledger reference, it answers with one of three statuses,
    and it leaves the broker alone unless it fills. *)
Lemma settle_account_frame symbol action q fp b status message b' :
  settle_account symbol action q fp b = (status, message, b') ->
  orders b' = orders b
  /\ pending_orders b' = pending_orders b
  /\ portfolio_ref b' = portfolio_ref b
  /\ trade_history b' = trade_history b
  /\ is_connected b' = is_connected b
  /\ commission_per_trade b' = commission_per_trade b
  /\ In status ["filled"; "rejected"; "failed"]
  /\ (String.eqb status "filled" = false -> b' = b).
Proof.
  unfold settle_account.
  destruct (String.eqb action "BUY").
  - destruct (_ <=? cash_balance b); intros [= <- <- <-]; simpl;
      repeat split; auto; discriminate.
  - destruct (String.eqb action "SELL").
    + destruct (Py.get symbol (positions b)) as [h|].
      * destruct (q <=? h_quantity h); intros [= <- <- <-]; simpl;
          repeat split; auto; discriminate.
      * intros [= <- <- <-]; simpl; repeat split; auto.
    + intros [= <- <- <-]; simpl; repeat split; auto.
Qed.

Lemma report_fill_frame now fill b :
  orders (report_fill now fill b) = orders b
  /\ pending_orders (report_fill now fill b) = pending_orders b
  /\ is_connected (report_fill now fill b) = is_connected b
  /\ cash_balance (report_fill now fill b) = cash_balance b
  /\ positions (report_fill now fill b) = positions b
  /\ trade_history (report_fill now fill b) = trade_history b.
Proof. unfold report_fill. destruct (portfolio_ref b); simpl; auto 10. Qed.

Lemma register_order_frame now id order b :
  pending_orders (register_order now id order b) = pending_orders b
  /\ is_connected (register_order now id order b) = is_connected b
  /\ cash_balance (register_order now id order b) = cash_balance b
  /\ positions (register_order now id order b) = positions b
  /\ portfolio_ref (register_order now id order b) = portfolio_ref b
  /\ trade_history (register_order now id order b) = trade_history b
  /\ commission_per_trade (register_order now id order b)
     = commission_per_trade b.
Proof. unfold register_order. destruct (Py.mem id (orders b)); simpl; auto 10. Qed.

(** Registering and then updating an order amounts to one assignment in the
    order book. *)
Lemma register_order_entry now id order b :
  exists info,
    Py.get id (orders (register_order now id order b)) = Some info
    /\ forall v, Py.set id v (orders (register_order now id order b))
                 = Py.set id v (orders b).
Proof.
  unfold register_order, Py.mem.
  destruct (Py.get id (orders b)) as [info|] eqn:G.
  - exists info. split; [exact G | reflexivity].
  - eexists. cbn [orders with_orders]. split.
    + apply DictFacts.get_set_same.
    + intros v. apply DictFacts.set_set.
Qed.

Lemma register_then_update now id order status q fp message b b2 :
  orders b2 = orders (register_order now id order b) ->
  exists info,
    Py.get id (orders (register_order now id order b)) = Some info
    /\ orders (update_order id status q fp message now b2)
       = Py.set id (settle status q fp message now info) (orders b).
Proof.
  intros O. destruct (register_order_entry now id order b) as (info & G & S).
  exists info. split; [exact G|].
  unfold update_order. rewrite O, G. cbn [orders with_orders].
  rewrite <- (S (settle status q fp message now info)). now rewrite <- O.
Qed.

(** An execution of a valid order: the queue and the connection stay, and
    the order book changes at the order's own entry, which comes to rest. *)
Lemma execute_valid_frame now id symbol action q rp order b :
  let b' := snd (execute_valid now id symbol action q rp order b) in
  pending_orders b' = pending_orders b
  /\ is_connected b' = is_connected b
  /\ exists info,
       orders b' = Py.set id info (orders b)
       /\ In (oi_status info) ["filled"; "rejected"; "failed"]
       /\ oi_status info = r_status (fst (execute_valid now id symbol action q rp order b)).
Proof.
  unfold execute_valid.
  destruct (settle_account symbol action q (fill_price b symbol action rp)
                           (register_order now id order b))
    as [[status message] b2] eqn:SA.
  destruct (settle_account_frame _ _ _ _ _ _ _ _ SA)
    as (O2 & P2 & _ & _ & C2 & _ & ST & _).
  destruct (register_order_frame now id order b) as (P1 & C1 & _).
  destruct (register_then_update now id order status q
              (fill_price b symbol action rp) message b b2 O2)
    as (info & _ & O3).
  cbn [snd fst r_status].
  assert (F : pending_orders
                (update_order id status q (fill_price b symbol action rp)
                              message now b2) = pending_orders b
              /\ is_connected
                   (update_order id status q (fill_price b symbol action rp)
                                 message now b2) = is_connected b).
  { unfold update_order. destruct (Py.get id (orders b2)); simpl;
      rewrite P2, C2, P1, C1; auto. }
  destruct F as (F1 & F2).
  destruct (String.eqb status "filled").
  - unfold notify_fill.
    destruct (report_fill_frame now
                (Portfolio.mkFill (Some now) (Some symbol) (Some action)
                   (Some q) (Some (fill_price b symbol action rp))
                   (Some (commission_per_trade
                            (update_order id status q
                               (fill_price b symbol action rp) message now b2)))
                   (Some id))
                (with_trade_history
                   (trade_history
                      (update_order id status q (fill_price b symbol action rp)
                                    message now b2) ++ [id])
                   (update_order id status q (fill_price b symbol action rp)
                                 message now b2)))
      as (RO & RP & RC & _).
    rewrite RO, RP, RC. cbn [orders pending_orders is_connected with_trade_history].
    repeat split; auto. eexists. split; [exact O3|]. split; [exact ST|reflexivity].
  - repeat split; auto. eexists. split; [exact O3|]. split; [exact ST|reflexivity].
Qed.

Lemma execute_frame now fresh order b r b' :
  _execute_order now fresh order b = Py.Ok (r, b') ->
  pending_orders b' = pending_orders b
  /\ is_connected b' = is_connected b
  /\ (statuses_at_rest b -> statuses_at_rest b').
Proof.
  unfold _execute_order.
  destruct (negb (is_connected b)); [intros [= <- <-]; auto|].
  destruct (float_of_quantity (o_quantity order)) as [q|e]; [|discriminate].
  cbn [Py.bind].
  destruct (o_symbol order) as [symbol|]; [|intros [= <- <-]; auto].
  destruct (o_price order) as [requested_price|]; [|intros [= <- <-]; auto].
  destruct (negb _); [intros [= <- <-]; auto|].
  intros [= E]. 
  destruct (execute_valid_frame now (Py.get_or fresh (o_order_id order)) symbol
              (Py.upper (Py.get_or EmptyString (o_action order))) q requested_price
              order b) as (P & C & info & O & ST & _).
  rewrite E in P, C, O. cbn [snd] in P, C, O.
  repeat split; auto.
  intros R id i I. rewrite O in I. apply DictFacts.in_set in I.
  destruct I as [[= -> ->]|I].
  - unfold resting_statuses. simpl in ST |- *. tauto.
  - now apply (R id).
Qed.

Lemma process_one_frame now fresh md entry b b' :
  process_one now fresh md entry b = Py.Ok b' ->
  is_connected b' = is_connected b
  /\ (statuses_at_rest b -> statuses_at_rest b')
  /\ (forall id, Py.get id (pending_orders b') = Py.get id (pending_orders b)
                 \/ id = fst entry).
Proof.
  unfold process_one. destruct entry as [order_id order].
  destruct (o_symbol order) as [symbol|]; [|intros [= <-]; auto].
  destruct (Py.get symbol md) as [bar|]; [|intros [= <-]; auto].
  destruct (should_execute order (b_close bar)) as [[|]|e]; cbn [Py.bind];
    [|intros [= <-]; auto|discriminate].
  destruct (_execute_order _ _ _ _) as [[r b1]|e] eqn:E; cbn [Py.bind];
    [|discriminate].
  intros [= <-]. cbn [snd].
  destruct (execute_frame _ _ _ _ _ _ E) as (P & C & S).
  cbn [pending_orders with_pending_orders is_connected] in P, C.
  split; [exact C|]. split.
  - intros R. apply S. exact R.
  - intros id. rewrite P. cbn [fst].
    destruct (String.eqb id order_id) eqn:N.
    + right. now apply String.eqb_eq.
    + left. now apply DictFacts.get_del_other.
Qed.

Lemma process_all_rest now fresh md todo : forall b,
  statuses_at_rest b ->
  statuses_at_rest (snd (process_all now fresh md todo b)).
Proof.
  induction todo as [|entry rest IH]; intros b R; simpl; [exact R|].
  destruct (process_one now fresh md entry b) as [b1|e] eqn:E; [|exact R].
  apply IH. now apply (process_one_frame _ _ _ _ _ _ E).
Qed.

Lemma place_order_rest now fresh order b r b' :
  place_order now fresh order b = Py.Ok (r, b') ->
  statuses_at_rest b -> statuses_at_rest b'.
Proof.
  unfold place_order.
  destruct (negb (is_connected b)); [now intros [= <- <-]|].
  destruct (float_of_quantity (o_quantity order)) as [q|e]; [|discriminate].
  cbn [Py.bind].
  destruct (negb _); [now intros [= <- <-]|].
  destruct (_ && _); [now intros [= <- <-]|].
  destruct (_ && _); [now intros [= <- <-]|].
  destruct (String.eqb _ "MARKET").
  - intros E. now apply (execute_frame _ _ _ _ _ _ E).
  - intros [= <- <-] R id i I. cbn [orders with_pending_orders with_orders] in I.
    apply DictFacts.in_set in I. destruct I as [[= -> ->]|I].
    + simpl. auto.
    + now apply (R id).
Qed.

Lemma cancel_order_rest order_id b :
  statuses_at_rest b -> statuses_at_rest (snd (cancel_order order_id b)).
Proof.
  intros R. unfold cancel_order.
  destruct (Py.get order_id (orders b)) as [info|]; [|exact R].
  destruct (negb (terminal (oi_status info))); [|exact R].
  intros id i I. cbn [snd orders with_orders] in I.
  apply DictFacts.in_set in I. destruct I as [[= -> ->]|I].
  - simpl. auto 10.
  - apply (R id).
    destruct (Py.mem order_id (pending_orders b)); exact I.
Qed.

(** Between two calls every order of a broker is pending, filled, rejected,
    failed or cancelled. *)
Lemma reachable_rest b : reachable b -> statuses_at_rest b.
Proof.
  induction 1 as [config|b _ IH|b _ IH|provider b _ IH|p b _ IH
                  |now fresh order b r b' _ IH E|now fresh md b _ IH
                  |order_id b _ IH].
  - intros id i [].
  - exact IH.
  - exact IH.
  - exact IH.
  - exact IH.
  - now apply (place_order_rest _ _ _ _ _ _ E).
  - unfold process_pending_orders.
    destruct (_ || _); [exact IH|]. now apply process_all_rest.
  - now apply cancel_order_rest.
Qed.

End BrokerFacts.

(** * The claims about the broker *)

Module BrokerClaims.
Import SimulatedBroker.

Lemma update_order_frame id status q fp message now b :
  let b' := update_order id status q fp message now b in
  cash_balance b' = cash_balance b
  /\ positions b' = positions b
  /\ portfolio_ref b' = portfolio_ref b
  /\ trade_history b' = trade_history b
  /\ pending_orders b' = pending_orders b
  /\ is_connected b' = is_connected b
  /\ commission_per_trade b' = commission_per_trade b.
Proof. unfold update_order. destruct (Py.get id (orders b)); simpl; auto 10. Qed.

(** A valid order that the account cannot settle is rejected: the order
    book records it, and nothing else moves. *)
Lemma execute_valid_unsettled now id symbol action q rp order b message :
  settle_account symbol action q (fill_price b symbol action rp)
                 (register_order now id order b)
  = ("rejected", message, register_order now id order b) ->
  let '(r, b') := execute_valid now id symbol action q rp order b in
  r_status r = "rejected"
  /\ r_order_id r = Some id
  /\ cash_balance b' = cash_balance b
  /\ positions b' = positions b
  /\ portfolio_ref b' = portfolio_ref b
  /\ trade_history b' = trade_history b
  /\ pending_orders b' = pending_orders b
  /\ exists info, Py.get id (orders b') = Some info
                  /\ oi_status info = "rejected".
Proof.
  intros SA. unfold execute_valid. rewrite SA. cbn [String.eqb Ascii.eqb Bool.eqb].
  destruct (update_order_frame id "rejected" q (fill_price b symbol action rp)
              message now (register_order now id order b))
    as (C & P & R & T & Q & _).
  destruct (BrokerFacts.register_order_frame now id order b)
    as (Q1 & _ & C1 & P1 & R1 & T1 & _).
  rewrite C, P, R, T, Q, C1, P1, R1, T1, Q1.
  repeat split.
  destruct (BrokerFacts.register_then_update now id order "rejected" q
              (fill_price b symbol action rp) message b
              (register_order now id order b) eq_refl) as (info & _ & O).
  rewrite O. eexists. split; [apply DictFacts.get_set_same | reflexivity].
Qed.

(** A valid MARKET order is executed at once. *)
Lemma place_market_order now fresh order b symbol q price :
  is_connected b = true ->
  Py.upper (Py.get_or "MARKET" (o_order_type order)) = "MARKET" ->
  o_symbol order = Some symbol ->
  Py.truthy_str symbol = true ->
  o_quantity order = Some (QNum q) ->
  (0 <? q) = true ->
  o_price order = Some price ->
  (String.eqb (Py.upper (Py.get_or EmptyString (o_action order))) "BUY"
   || String.eqb (Py.upper (Py.get_or EmptyString (o_action order))) "SELL") = true ->
  place_order now fresh order b
  = Py.Ok (execute_valid now fresh symbol
                         (Py.upper (Py.get_or EmptyString (o_action order))) q price
                         (with_order_id fresh order) b).
Proof.
  intros C M S T Q P R A.
  assert (A1 : Py.truthy_str (Py.upper (Py.get_or EmptyString (o_action order))) = true).
  { apply orb_true_iff in A. destruct A as [A|A]; apply String.eqb_eq in A;
      rewrite A; reflexivity. }
  unfold place_order, _execute_order. rewrite C, Q, S, M.
  cbn [negb float_of_quantity Py.bind Py.truthy_ostr].
  rewrite T, A, P.
  cbn [andb orb negb String.eqb Ascii.eqb Bool.eqb
       o_quantity o_symbol o_price o_action o_order_id with_order_id
       Py.get_or].
  rewrite Q, S, R. cbn [float_of_quantity Py.bind]. rewrite T, A1, P.
  reflexivity.
Qed.

(** C6.  A MARKET BUY whose cost, quantity times fill price plus commission,
    exceeds the broker's cash is marked rejected, and so is a MARKET SELL of
    a symbol the broker does not hold or for more than it holds: the cash,
    the positions, the trade history and the queue of the broker stay as
    they were, and the ledger is not told (it is the same after the call). *)
Theorem market_order_rejected (now fresh : string) (order : Order) (b : t)
    (symbol : string) (q price : float) :
  is_connected b = true ->
  Py.upper (Py.get_or "MARKET" (o_order_type order)) = "MARKET" ->
  o_symbol order = Some symbol ->
  Py.truthy_str symbol = true ->
  o_quantity order = Some (QNum q) ->
  (0 <? q) = true ->
  o_price order = Some price ->
  let action := Py.upper (Py.get_or EmptyString (o_action order)) in
  let filled_price := fill_price b symbol action price in
  (action = "BUY"
   /\ (cash_balance b <? q * filled_price + commission_per_trade b) = true)
  \/ (action = "SELL"
      /\ match Py.get symbol (positions b) with
         | Some held => (h_quantity held <? q) = true
         | None => True
         end) ->
  exists r b',
    place_order now fresh order b = Py.Ok (r, b')
    /\ r_status r = "rejected"
    /\ cash_balance b' = cash_balance b
    /\ positions b' = positions b
    /\ portfolio_ref b' = portfolio_ref b
    /\ trade_history b' = trade_history b
    /\ pending_orders b' = pending_orders b
    /\ exists info, Py.get fresh (orders b') = Some info
                    /\ oi_status info = "rejected".
Proof.
  intros C M S T Q P R action filled_price H.
  assert (A : Py.truthy_str action = true
              /\ (String.eqb action "BUY" || String.eqb action "SELL") = true).
  { destruct H as [[-> _]|[-> _]]; split; reflexivity. }
  destruct A as (A1 & A2).
  rewrite (place_market_order now fresh order b symbol q price C M S T Q P R A2).
  fold action.
  destruct (execute_valid now fresh symbol action q price
                          (with_order_id fresh order) b) as [r b'] eqn:E.
  exists r, b'. split; [reflexivity|].
  assert (SA : exists message,
             settle_account symbol action q filled_price
                            (register_order now fresh (with_order_id fresh order) b)
             = ("rejected", message,
                register_order now fresh (with_order_id fresh order) b)).
  { destruct (BrokerFacts.register_order_frame now fresh
                (with_order_id fresh order) b)
      as (_ & _ & C1 & P1 & _ & _ & K1).
    unfold settle_account. rewrite C1, P1, K1.
    destruct H as [[-> L]|[-> L]]; cbn.
    - fold filled_price in L |- *.
      rewrite (FloatFacts.ltb_leb_false _ _ L). eauto.
    - destruct (Py.get symbol (positions b)) as [held|]; [|eauto].
      rewrite (FloatFacts.ltb_leb_false _ _ L). eauto. }
  destruct SA as (message & SA).
  pose proof (execute_valid_unsettled now fresh symbol action q price
                (with_order_id fresh order) b message SA) as U.
  rewrite E in U. destruct U as (U1 & _ & U). split; [exact U1 | exact U].
Qed.

(** With 1000 in cash, a MARKET BUY of 100 AAPL at 150 is rejected; so is a
    MARKET SELL of 10 AAPL that the broker does not hold. *)
Lemma market_order_rejected_witness :
  let b := Scenario.connected_broker 1000 in
  (exists r b',
      place_order "t1" "order-1"
                  (Scenario.order_of "BUY" "MARKET" 100 (Some 150) None) b
      = Py.Ok (r, b')
      /\ r_status r = "rejected"
      /\ cash_balance b' = 1000
      /\ portfolio_ref b' = portfolio_ref b)
  /\ (exists r b',
         place_order "t1" "order-1"
                     (Scenario.order_of "SELL" "MARKET" 10 (Some 150) None) b
         = Py.Ok (r, b')
         /\ r_status r = "rejected"
         /\ cash_balance b' = 1000
         /\ portfolio_ref b' = portfolio_ref b).
Proof.
  intros b. split.
  - destruct (market_order_rejected "t1" "order-1"
                (Scenario.order_of "BUY" "MARKET" 100 (Some 150) None) b
                "AAPL" 100 150 eq_refl eq_refl eq_refl eq_refl eq_refl eq_refl
                eq_refl (or_introl (conj eq_refl eq_refl)))
      as (r & b' & E & S & C & _ & R & _).
    exists r, b'. auto.
  - destruct (market_order_rejected "t1" "order-1"
                (Scenario.order_of "SELL" "MARKET" 10 (Some 150) None) b
                "AAPL" 10 150 eq_refl eq_refl eq_refl eq_refl eq_refl eq_refl
                eq_refl (or_intror (conj eq_refl I)))
      as (r & b' & E & S & C & _ & R & _).
    exists r, b'. auto.
Defined.


(** C7.  An order that is filled, rejected or cancelled cannot be cancelled:
    [cancel_order] answers "failed", naming the status, and leaves the whole
    broker, so also the order's status, as it was; a second call gives the
    same answer.  And on a broker brought about through its methods, a call
    that answers "cancelled" found the order pending and leaves it
    cancelled. *)
Theorem cancel_terminal_order (order_id : string) (b : t) (info : OrderInfo) :
  Py.get order_id (orders b) = Some info ->
  In (oi_status info) ["filled"; "rejected"; "cancelled"] ->
  let refusal :=
    mkResult "failed" None
             [Lit "Order cannot be cancelled (status: ";
              Str (oi_status info); Lit ")."]
             None None None None in
  cancel_order order_id b = (refusal, b)
  /\ cancel_order order_id (snd (cancel_order order_id b)) = (refusal, b)
  /\ forall b0 id,
       reachable b0 ->
       r_status (fst (cancel_order id b0)) = "cancelled" ->
       exists before after,
         Py.get id (orders b0) = Some before
         /\ oi_status before = "pending"
         /\ Py.get id (orders (snd (cancel_order id b0))) = Some after
         /\ oi_status after = "cancelled".
Proof.
  intros G H refusal.
  assert (E : cancel_order order_id b = (refusal, b)).
  { unfold cancel_order. rewrite G.
    assert (T : terminal (oi_status info) = true).
    { simpl in H. destruct H as [<-|[<-|[<-|[]]]]; reflexivity. }
    rewrite T. reflexivity. }
  split; [exact E|]. split; [rewrite E; exact E|].
  intros b0 id R. unfold cancel_order.
  destruct (Py.get id (orders b0)) as [before|] eqn:G0; [|discriminate].
  destruct (terminal (oi_status before)) eqn:T; [discriminate|].
  intros _. cbn [negb snd orders with_orders].
  exists before. eexists. split; [reflexivity|]. split.
  - pose proof (BrokerFacts.reachable_rest b0 R id before
                  (DictFacts.get_in _ _ _ G0)) as K.
    unfold resting_statuses in K. simpl in K.
    destruct K as [K|[K|[K|[K|[K|[]]]]]]; rewrite <- K in T |- *;
      try reflexivity; discriminate T.
  - split; [apply DictFacts.get_set_same | reflexivity].
Qed.

(** A filled MARKET BUY is cancelled twice, in vain. *)
Lemma cancel_terminal_order_witness :
  let b0 := Scenario.connected_broker 100000 in
  let b :=
    Scenario.broker_after
      (place_order "t1" "order-1"
                   (Scenario.order_of "BUY" "MARKET" 10 (Some 150) None) b0)
      b0 in
  let refusal :=
    mkResult "failed" None
             [Lit "Order cannot be cancelled (status: "; Str "filled"; Lit ")."]
             None None None None in
  cancel_order "order-1" b = (refusal, b)
  /\ cancel_order "order-1" (snd (cancel_order "order-1" b)) = (refusal, b).
Proof.
  intros b0 b refusal.
  destruct (cancel_terminal_order "order-1" b
              (mkOrderInfo
                 (with_order_id "order-1"
                    (Scenario.order_of "BUY" "MARKET" 10 (Some 150) None))
                 "filled" "t1"
                 (Some (filled_message "BUY" 10 "AAPL" 150))
                 (Some 10) (Some 150) (Some "t1"))
              eq_refl (or_introl eq_refl)) as (E1 & E2 & _).
  split; [exact E1 | exact E2].
Defined.

Lemma should_execute_stop_limit (o : Order) (close limit stop : float) :
  Py.upper (Py.get_or EmptyString (o_order_type o)) = "STOP_LIMIT" ->
  o_price o = Some limit ->
  o_stop_price o = Some stop ->
  let action := Py.upper (Py.get_or EmptyString (o_action o)) in
  should_execute o (Some close)
  = Py.Ok (((String.eqb action "BUY" && (stop <=? close))
            || (String.eqb action "SELL" && (close <=? stop)))
           && ((String.eqb action "BUY" && (close <=? limit))
               || (String.eqb action "SELL" && (limit <=? close)))).
Proof.
  intros T L S action. unfold should_execute. rewrite T, L, S. fold action.
  cbn [String.eqb Ascii.eqb Bool.eqb].
  unfold stop_condition, limit_condition, le_price, ge_price.
  destruct (String.eqb action "BUY") eqn:B.
  - apply String.eqb_eq in B. rewrite B. cbn [String.eqb Ascii.eqb Bool.eqb andb Py.bind].
    rewrite !orb_false_r.
    destruct (stop <=? close); reflexivity.
  - destruct (String.eqb action "SELL"); cbn [andb orb Py.bind];
      [destruct (close <=? stop)|]; reflexivity.
Qed.

(** An order that is not triggered stays where it is while the rest of the
    queue is processed. *)
Lemma unique_entry {V} (d : Py.dict V) k v v' :
  NoDup (Py.keys d) -> Py.get k d = Some v -> In (k, v') d -> v' = v.
Proof.
  induction d as [|[k0 v0] r IH]; simpl; [intros _ [=]|].
  intros N G I. inversion N as [|? ? N1 N2]; subst.
  destruct (String.eqb k k0) eqn:E.
  - apply String.eqb_eq in E. subst k0. injection G as <-.
    destruct I as [[= ->]|I]; [reflexivity|].
    exfalso. apply N1. apply (in_map fst) in I. exact I.
  - destruct I as [[= -> ->]|I].
    + rewrite String.eqb_refl in E. discriminate E.
    + now apply IH.
Qed.

Lemma process_all_keeps now fresh md id o :
  (forall b, process_one now fresh md (id, o) b = Py.Ok b) ->
  forall todo b,
    (forall o', In (id, o') todo -> o' = o) ->
    Py.get id (pending_orders b) = Some o ->
    Py.get id (pending_orders (snd (process_all now fresh md todo b))) = Some o.
Proof.
  intros Skip. induction todo as [|[k o'] rest IH]; intros b U G;
    cbn [process_all]; [exact G|].
  destruct (String.eqb id k) eqn:E.
  - apply String.eqb_eq in E. subst k.
    rewrite (U o' (or_introl eq_refl)), Skip.
    apply IH; [|exact G]. intros o'' I. apply U. now right.
  - destruct (process_one now fresh md (k, o') b) as [b1|e] eqn:P; [|exact G].
    apply IH; [intros o'' I; apply U; now right|].
    destruct (BrokerFacts.process_one_frame _ _ _ _ _ _ P) as (_ & _ & F).
    destruct (F id) as [F'|F']; [now rewrite F'|].
    cbn [fst] in F'. subst k. rewrite String.eqb_refl in E. discriminate E.
Qed.

(** C4.  A pending STOP_LIMIT order met by a bar is executed exactly when
    the stop condition (BUY: close >= stop_price, SELL: close <= stop_price)
    and the limit condition (BUY: close <= limit, SELL: close >= limit) both
    hold for the close of that bar; then it leaves the queue and is executed
    as a market order at that close.  Otherwise the turn leaves the broker
    as it is, and after the whole pass the order is still in the queue. *)
Theorem stop_limit_needs_both (now fresh : string) (md : Py.dict Bar)
    (id symbol : string) (o : Order) (bar : Bar) (close limit stop : float) :
  Py.upper (Py.get_or EmptyString (o_order_type o)) = "STOP_LIMIT" ->
  o_symbol o = Some symbol ->
  Py.get symbol md = Some bar ->
  b_close bar = Some close ->
  o_price o = Some limit ->
  o_stop_price o = Some stop ->
  let action := Py.upper (Py.get_or EmptyString (o_action o)) in
  let stop_met :=
    (String.eqb action "BUY" && (stop <=? close))
    || (String.eqb action "SELL" && (close <=? stop)) in
  let limit_met :=
    (String.eqb action "BUY" && (close <=? limit))
    || (String.eqb action "SELL" && (limit <=? close)) in
  should_execute o (Some close) = Py.Ok (stop_met && limit_met)
  /\ (forall b,
         stop_met && limit_met = true ->
         process_one now fresh md (id, o) b
         = (rb <- _execute_order now fresh
                    (with_order_type "MARKET" (with_price (Some close) o))
                    (with_pending_orders (Py.del id (pending_orders b)) b) ;;
            Py.Ok (snd rb)))
  /\ (forall b,
         stop_met && limit_met = false ->
         process_one now fresh md (id, o) b = Py.Ok b)
  /\ (forall b,
         stop_met && limit_met = false ->
         NoDup (Py.keys (pending_orders b)) ->
         Py.get id (pending_orders b) = Some o ->
         Py.get id (pending_orders
                      (snd (process_pending_orders now fresh md b)))
         = Some o).
Proof.
  intros T S M C L P action stop_met limit_met.
  pose proof (should_execute_stop_limit o close limit stop T L P) as E.
  cbv zeta in E. fold action in E. fold stop_met limit_met in E.
  assert (Step : forall b,
             process_one now fresh md (id, o) b
             = if stop_met && limit_met
               then (rb <- _execute_order now fresh
                             (with_order_type "MARKET" (with_price (Some close) o))
                             (with_pending_orders (Py.del id (pending_orders b)) b) ;;
                     Py.Ok (snd rb))
               else Py.Ok b).
  { intros b. unfold process_one. rewrite S, M, C, E. cbn [Py.bind].
    reflexivity. }
  split; [exact E|]. split; [intros b H; now rewrite Step, H|].
  split; [intros b H; now rewrite Step, H|].
  intros b H N G. unfold process_pending_orders.
  destruct (negb (is_connected b) || _); [exact G|].
  apply process_all_keeps; [intros b0; now rewrite Step, H | | exact G].
  intros o' I. now apply (unique_entry (pending_orders b) id o o' N G).
Qed.

(** A STOP_LIMIT BUY with stop 10 and limit 10.5 meets a bar closing at 11:
    the stop holds, the limit does not, and the order stays in the queue. *)
Lemma stop_limit_needs_both_witness :
  let b0 := Scenario.connected_broker 100000 in
  let o := Scenario.order_of "BUY" "STOP_LIMIT" 100 (Some 10.5) (Some 10) in
  let b := Scenario.broker_after (place_order "t1" "order-1" o b0) b0 in
  process_pending_orders "t2" "order-2" (Scenario.bar_at 11) b = (None, b)
  /\ Py.get "order-1" (pending_orders b) = Some (with_order_id "order-1" o).
Proof.
  intros b0 o b.
  destruct (stop_limit_needs_both "t2" "order-2" (Scenario.bar_at 11) "order-1"
              "AAPL" (with_order_id "order-1" o)
              (mkBar (Some 11) (Some 11) (Some 11) (Some 11)) 11 10.5 10
              eq_refl eq_refl eq_refl eq_refl eq_refl eq_refl)
    as (_ & _ & Skip & _).
  split; [|reflexivity].
  unfold process_pending_orders.
  change (pending_orders b) with [("order-1", with_order_id "order-1" o)].
  change (is_connected b) with true. cbn [negb orb process_all].
  rewrite (Skip b eq_refl). reflexivity.
Defined.


Lemma update_order_get id status q fp message now b info :
  Py.get id (orders b) = Some info ->
  Py.get id (orders (update_order id status q fp message now b))
  = Some (settle status q fp message now info).
Proof.
  intros G. unfold update_order. rewrite G. cbn [orders with_orders].
  apply DictFacts.get_set_same.
Qed.

Lemma notify_fill_frame now id symbol action q fp b :
  let b' := notify_fill now id symbol action q fp b in
  orders b' = orders b
  /\ pending_orders b' = pending_orders b
  /\ cash_balance b' = cash_balance b
  /\ positions b' = positions b
  /\ portfolio_ref b'
     = option_map
         (Portfolio.update_fill now
            (Portfolio.mkFill (Some now) (Some symbol) (Some action) (Some q)
               (Some fp) (Some (commission_per_trade b)) (Some id)))
         (portfolio_ref b).
Proof.
  unfold notify_fill, report_fill.
  change (portfolio_ref
            (with_trade_history (trade_history b ++ [id])%list b))
    with (portfolio_ref b).
  destruct (portfolio_ref b) eqn:E; cbn [option_map]; repeat split.
  exact E.
Qed.

Lemma should_execute_limit_buy (o : Order) (close limit : float) :
  Py.upper (Py.get_or EmptyString (o_order_type o)) = "LIMIT" ->
  Py.upper (Py.get_or EmptyString (o_action o)) = "BUY" ->
  o_price o = Some limit ->
  should_execute o (Some close) = Py.Ok (close <=? limit).
Proof.
  intros T A L. unfold should_execute. rewrite T, A, L. reflexivity.
Qed.

(** A valid BUY is filled when the cash covers the cost, and rejected
    otherwise. *)
Lemma execute_valid_buy now id symbol q rp order b :
  let filled_price := fill_price b symbol "BUY" rp in
  let total_cost := q * filled_price + commission_per_trade b in
  let b1 := register_order now id order b in
  execute_valid now id symbol "BUY" q rp order b
  = if total_cost <=? cash_balance b then
      (mkResult "filled" (Some id) (filled_message "BUY" q symbol filled_price)
                (Some q) (Some filled_price) None None,
       notify_fill now id symbol "BUY" q filled_price
         (update_order id "filled" q filled_price
            (filled_message "BUY" q symbol filled_price) now
            (with_positions
               (Py.set symbol
                  (buy_holding q filled_price
                     (Py.get_or (mkHolding 0 0 0 0)
                                (Py.get symbol (positions b))))
                  (positions b))
               (with_cash_balance (cash_balance b - total_cost) b1))))
    else
      (mkResult "rejected" (Some id) [Lit "Insufficient cash"] (Some 0) None
                None None,
       update_order id "rejected" q filled_price [Lit "Insufficient cash"] now b1).
Proof.
  intros filled_price total_cost b1.
  destruct (BrokerFacts.register_order_frame now id order b)
    as (_ & _ & C1 & P1 & _ & _ & K1).
  fold b1 in C1, P1, K1.
  unfold execute_valid, settle_account. fold filled_price b1.
  cbn [String.eqb Ascii.eqb Bool.eqb]. rewrite C1, K1. fold total_cost.
  destruct (total_cost <=? cash_balance b).
  - cbn [String.eqb Ascii.eqb Bool.eqb positions with_cash_balance].
    rewrite P1. reflexivity.
  - reflexivity.
Qed.


Lemma set_keeps_nodup {V} (d : Py.dict V) k v :
  NoDup (Py.keys d) -> NoDup (Py.keys (Py.set k v d)).
Proof.
  induction d as [|[k0 v0] r IH]; simpl; intros N.
  - constructor; [intros [] | constructor].
  - inversion N as [|? ? N1 N2]; subst.
    destruct (String.eqb k k0) eqn:E; simpl.
    + apply String.eqb_eq in E. subst k0. now constructor.
    + constructor; [|now apply IH].
      intros I. apply in_map_iff in I. destruct I as ([k1 v1] & F & I).
      simpl in F. subst k1. apply DictFacts.in_set in I.
      destruct I as [[= -> ->]|I].
      * rewrite String.eqb_refl in E. discriminate E.
      * apply N1. apply (in_map fst) in I. exact I.
Qed.

(** The turn of a triggered LIMIT BUY: the order leaves the queue and is
    executed as a market order at the bar's close. *)
Lemma triggered_limit_buy now fresh md id queued symbol q limit bar close b :
  is_connected b = true ->
  Py.upper (Py.get_or EmptyString (o_order_type queued)) = "LIMIT" ->
  Py.upper (Py.get_or EmptyString (o_action queued)) = "BUY" ->
  o_symbol queued = Some symbol ->
  Py.truthy_str symbol = true ->
  o_quantity queued = Some (QNum q) ->
  (0 <? q) = true ->
  o_price queued = Some limit ->
  o_order_id queued = Some id ->
  Py.get symbol md = Some bar ->
  b_close bar = Some close ->
  (close <=? limit) = true ->
  process_one now fresh md (id, queued) b
  = Py.Ok (snd (execute_valid now id symbol "BUY" q close
                  (with_order_type "MARKET" (with_price (Some close) queued))
                  (with_pending_orders (Py.del id (pending_orders b)) b))).
Proof.
  intros C T A S Y Q P L I M B H. unfold process_one. rewrite S, M, B.
  rewrite (should_execute_limit_buy queued close limit T A L), H.
  cbn [Py.bind]. unfold _execute_order.
  change (is_connected (with_pending_orders (Py.del id (pending_orders b)) b))
    with (is_connected b).
  rewrite C.
  cbn [negb o_quantity o_symbol o_price o_action o_order_id
       with_order_type with_price Py.get_or].
  rewrite Q, S, A, I. cbn [float_of_quantity Py.bind Py.get_or]. rewrite Y, P.
  reflexivity.
Qed.



End BrokerClaims.

(** * The claims about the risk manager *)

Module RiskClaims.
Import SimpleRiskManager.

(** C2, as stated, fails: in Scenario A the risk budget allows 400 shares,
    but [calculate_max_position_size] also caps the order value at
    [max_order_value_pct] (by default 0.1) of the capital, 10000, that is
    200 shares at 50: the maximum sized quantity is 200. *)
Lemma scenario_a_max_quantity :
  fst (calculate_max_position_size "AAPL" 50 (Scenario.snapshot 100000 100000)
                                   (Some 45) "BUY" Scenario.manager_a)
  = Py.Ok 200.
Proof. vm_compute. reflexivity. Qed.

(** C2 (amended).  In Scenario A the risk budget is 2000 and the risk per
    unit is 5, so percent-risk sizing allows 400 shares; the cap on the
    order value brings the maximum sized quantity down to 200; a requested
    quantity of 100 is adjusted to exactly 100, with a calculated risk of
    500, and the symbol's entry in [positions_risk] becomes 500. *)
Theorem scenario_a_sizing :
  let r := Scenario.manager_a in
  let ps := Scenario.snapshot 100000 100000 in
  let r0 := update_portfolio_state ps r in
  let budget := current_capital r0 * max_risk_per_trade_pct r0 in
  budget = 2000
  /\ abs (50 - 45) = 5
  /\ size_by_method r0 "BUY" 50 (Some 45) budget = Sized 400
  /\ fst (calculate_max_position_size "AAPL" 50 ps (Some 45) "BUY" r)
     = Py.Ok 200
  /\ exists adjusted r',
       adjust_order_size Scenario.buy_a ps None r = (Py.Ok adjusted, r')
       /\ o_quantity adjusted = Some (QNum 100)
       /\ o_calculated_risk adjusted = Some 500
       /\ Py.get "AAPL" (positions_risk r') = Some 500
       /\ current_total_risk_amount r' = 500.
Proof.
  intros r ps r0 budget.
  assert (B : budget = 2000) by (vm_compute; reflexivity).
  split; [exact B|]. split; [vm_compute; reflexivity|].
  split; [rewrite B; vm_compute; reflexivity|].
  split; [vm_compute; reflexivity|].
  destruct (adjust_order_size Scenario.buy_a ps None r) as [res r'] eqn:E.
  vm_compute in E. injection E as <- <-.
  eexists. eexists. split; [reflexivity|]. repeat split.
Qed.

Lemma exit_is_not_entry action : is_exit action = true -> is_entry action = false.
Proof.
  unfold is_exit, is_entry. intros H. apply orb_true_iff in H.
  destruct H as [H|H]; apply String.eqb_eq in H; subst action; reflexivity.
Qed.

Lemma remove_risk_keeps symbol r :
  current_capital (_remove_position_risk symbol r) = current_capital r
  /\ high_water_mark (_remove_position_risk symbol r) = high_water_mark r
  /\ max_drawdown_limit_pct (_remove_position_risk symbol r)
     = max_drawdown_limit_pct r.
Proof. repeat split. Qed.

(** A BUY or SHORT order sized while the drawdown is at or above the limit
    gets quantity 0 and a reason. *)
Lemma entry_blocked (r : t) (o : Order) (ps : PortfolioState)
    (pos : option Portfolio.Position) :
  let r0 := update_portfolio_state ps r in
  is_entry (Py.upper (Py.get_or EmptyString (o_action o))) = true ->
  (max_drawdown_limit_pct r0 <=? _calculate_current_drawdown r0) = true ->
  exists o' r' reason,
    adjust_order_size o ps pos r = (Py.Ok o', r')
    /\ o_quantity o' = Some (QNum 0)
    /\ o_reason o' = Some [Lit reason]
    /\ (reason = "Max drawdown limit reached."
        \/ reason = "Invalid order fields (action, symbol, price).")
    /\ current_capital r' = current_capital r0
    /\ high_water_mark r' = high_water_mark r0
    /\ max_drawdown_limit_pct r' = max_drawdown_limit_pct r0.
Proof.
  intros r0 A D. unfold adjust_order_size. fold r0.
  destruct (o_symbol o) as [symbol|];
    [|do 3 eexists; split; [reflexivity|]; repeat split; auto].
  destruct (o_price o) as [price|];
    [|do 3 eexists; split; [reflexivity|]; repeat split; auto].
  destruct (negb _ || _);
    [do 3 eexists; split; [reflexivity|]; repeat split; auto|].
  rewrite A, D.
  do 3 eexists. split; [reflexivity|]. repeat split; auto.
Qed.

(** The sizing of a SELL or COVER order does not read the risk manager or
    the portfolio snapshot. *)
Lemma exit_sizing_ignores_state (o : Order) (pos : option Portfolio.Position)
    (r r2 : t) (ps ps2 : PortfolioState) :
  is_exit (Py.upper (Py.get_or EmptyString (o_action o))) = true ->
  fst (adjust_order_size o ps2 pos r2) = fst (adjust_order_size o ps pos r).
Proof.
  intros X. unfold adjust_order_size.
  destruct (o_symbol o) as [symbol|]; [|reflexivity].
  destruct (o_price o) as [price|]; [|reflexivity].
  destruct (negb _ || _); [reflexivity|].
  rewrite (exit_is_not_entry _ X), X.
  destruct (Py.whole _) as [final_quantity|e]; [|reflexivity].
  destruct (_ && _); [reflexivity|].
  destruct (0 <? final_quantity); reflexivity.
Qed.

Lemma drawdown_depends_on_capital r r' :
  current_capital r' = current_capital r ->
  high_water_mark r' = high_water_mark r ->
  _calculate_current_drawdown r' = _calculate_current_drawdown r.
Proof. unfold _calculate_current_drawdown. now intros -> ->. Qed.

(** The drawdown the code compares with the limit is the ratio
    (high_water_mark - current_capital) / high_water_mark, with 0 in its
    place when it is not positive: a ratio at or above the limit trips the
    breaker. *)
Lemma ratio_trips (r : t) :
  (high_water_mark r =? 0) = false ->
  (max_drawdown_limit_pct r
   <=? (high_water_mark r - current_capital r) / high_water_mark r) = true ->
  (max_drawdown_limit_pct r <=? _calculate_current_drawdown r) = true.
Proof.
  intros Z L. unfold _calculate_current_drawdown. rewrite Z.
  destruct (0 <? _) eqn:P; [exact L|].
  exact (FloatFacts.leb_nonpos _ _ L P).
Qed.

(** C3.  Once the snapshot pushed with a sizing call is applied, if the
    current drawdown, (high_water_mark - current_capital) / high_water_mark
    or what [_calculate_current_drawdown] makes of it, is at or above
    [max_drawdown_limit_pct], every BUY or SHORT order is sized to quantity
    0 and carries a reason; the capital view is left as the snapshot made
    it, so a following BUY or SHORT call is blocked again as long as its own
    snapshot leaves the drawdown at or above the limit, and in particular
    when it brings no new total value.  The sizing of SELL and COVER orders
    does not depend on the risk manager's state: they are sized as without
    a drawdown.  The high-water mark never decreases. *)
Theorem drawdown_breaker (r : t) (o : Order) (ps : PortfolioState)
    (pos : option Portfolio.Position) :
  let r0 := update_portfolio_state ps r in
  let action := Py.upper (Py.get_or EmptyString (o_action o)) in
  (max_drawdown_limit_pct r0 <=? _calculate_current_drawdown r0) = true
  \/ ((high_water_mark r0 =? 0) = false
      /\ (max_drawdown_limit_pct r0
          <=? (high_water_mark r0 - current_capital r0) / high_water_mark r0)
         = true) ->
  (is_entry action = true ->
   exists o' r' reason,
     adjust_order_size o ps pos r = (Py.Ok o', r')
     /\ o_quantity o' = Some (QNum 0)
     /\ o_reason o' = Some [Lit reason]
     /\ (forall o2 ps2 pos2,
            is_entry (Py.upper (Py.get_or EmptyString (o_action o2))) = true ->
            let r1 := update_portfolio_state ps2 r' in
            ps_total_value ps2 = None
            \/ (max_drawdown_limit_pct r1 <=? _calculate_current_drawdown r1)
               = true ->
            exists o2' r2 reason2,
              adjust_order_size o2 ps2 pos2 r' = (Py.Ok o2', r2)
              /\ o_quantity o2' = Some (QNum 0)
              /\ o_reason o2' = Some [Lit reason2]))
  /\ (is_exit action = true ->
      forall r2 ps2,
        fst (adjust_order_size o ps2 pos r2) = fst (adjust_order_size o ps pos r))
  /\ (high_water_mark r0 <? high_water_mark r) = false.
Proof.
  intros r0 action D'.
  assert (D : (max_drawdown_limit_pct r0 <=? _calculate_current_drawdown r0)
              = true).
  { destruct D' as [D|[Z L]]; [exact D | now apply ratio_trips]. }
  clear D'. split; [|split].
  - intros A. destruct (entry_blocked r o ps pos A D)
      as (o' & r' & reason & E & Q & R & _ & C & H & L).
    exists o', r', reason. split; [exact E|]. split; [exact Q|].
    split; [exact R|].
    intros o2 ps2 pos2 A2 r1 K.
    assert (D2 : (max_drawdown_limit_pct r1 <=? _calculate_current_drawdown r1)
                 = true).
    { destruct K as [K|K]; [|exact K].
      subst r1. unfold update_portfolio_state. rewrite K.
      rewrite L, (drawdown_depends_on_capital r0 r' C H). exact D. }
    destruct (entry_blocked r' o2 ps2 pos2 A2 D2)
      as (o2' & r2 & reason2 & E2 & Q2 & R2 & _).
    exists o2', r2, reason2. auto.
  - intros X r2 ps2. now apply exit_sizing_ignores_state.
  - subst r0. unfold update_portfolio_state.
    destruct (ps_total_value ps) as [v|]; cbn [high_water_mark with_capital].
    + destruct (high_water_mark r <? v) eqn:V.
      * now apply FloatFacts.ltb_asym.
      * apply FloatFacts.ltb_irrefl.
    + apply FloatFacts.ltb_irrefl.
Qed.

(** The capital falls from 100000 to 85000, a drawdown of 0.15 against a
    limit of 0.1: the BUY of Scenario A is sized to 0, and a SELL of 50 out
    of 100 held is sized to 50. *)
Lemma drawdown_breaker_witness :
  let r := Scenario.manager_a in
  let ps := Scenario.snapshot 85000 85000 in
  (exists o' r',
      adjust_order_size Scenario.buy_a ps None r = (Py.Ok o', r')
      /\ o_quantity o' = Some (QNum 0)
      /\ o_reason o' = Some [Lit "Max drawdown limit reached."])
  /\ option_map o_quantity
       (match fst (adjust_order_size
                     (Scenario.signal_of "SELL" (Some (QNum 50)) (Some 50) None)
                     ps (Some (Scenario.held 100 50)) r) with
        | Py.Ok o' => Some o'
        | Py.Raise _ => None
        end)
     = Some (Some (QNum 50)).
Proof.
  intros r ps. split.
  - destruct (drawdown_breaker r Scenario.buy_a ps None
                (or_intror (conj eq_refl eq_refl)))
      as (Entry & _ & _).
    destruct (Entry eq_refl) as (o' & r' & reason & E & Q & R & _).
    exists o', r'. split; [exact E|]. split; [exact Q|].
    vm_compute in E. injection E as <- _. reflexivity.
  - destruct (drawdown_breaker r
                (Scenario.signal_of "SELL" (Some (QNum 50)) (Some 50) None)
                ps (Some (Scenario.held 100 50))
                (or_introl eq_refl))
      as (_ & Exit & _).
    rewrite <- (Exit eq_refl (update_portfolio_state
                                (Scenario.snapshot 100000 100000) r)
                     (Scenario.snapshot 100000 100000)).
    vm_compute. reflexivity.
Defined.

End RiskClaims.

(** * The claim about the order pipeline *)

Module HandlerClaims.
Import OrderHandler.

Section AnyCollaborators.
Context {W : Type} `{Collaborators W}.

(** An exception leaves the broker call of step 3 only when it is not an
    instance of [Exception], and then it is the one the broker raised. *)
Lemma place_raises (order_to_place : Order) (w w' : W) (e : Py.exn) :
  place order_to_place w = (Py.Raise e, w') ->
  Py.is_exception e = false
  /\ place_order order_to_place w = (Py.Raise e, w').
Proof.
  unfold place. destruct (place_order order_to_place w) as [[r|e0] w1].
  - discriminate.
  - destruct (Py.is_exception e0) eqn:E; [discriminate|].
    intros [= <- <-]. split; [exact E | reflexivity].
Qed.

(** An exception leaves [process_signal] from the risk stage, or from the
    broker call when it is not an instance of [Exception]. *)
Lemma process_signal_raises (signal : option Order) (w w' : W) (e : Py.exn) :
  process_signal signal w = (Py.Raise e, w') ->
  exists s,
    signal = Some s
    /\ (risk_stage s w = (Py.Raise e, w')
        \/ (Py.is_exception e = false
            /\ exists order w1,
                 risk_stage s w = (Py.Ok (inl order), w1)
                 /\ place_order
                      match o_order_type order with
                      | Some _ => order
                      | None => with_order_type "MARKET" order
                      end w1
                    = (Py.Raise e, w'))).
Proof.
  unfold process_signal. destruct signal as [s|]; [|discriminate].
  destruct (no_keys s || _); [discriminate|].
  destruct (risk_stage s w) as [[[order|rejected]|e0] w1] eqn:R.
  - destruct (_ && _); [discriminate|].
    intros P. apply place_raises in P. destruct P as (E & P).
    exists s. split; [reflexivity|]. right. split; [exact E|].
    exists order, w1. split; [exact R | exact P].
  - discriminate.
  - intros [= <- <-]. exists s. split; [reflexivity|]. left. exact R.
Qed.


End AnyCollaborators.



End HandlerClaims.
